(** * ethersync debug tools: [tools/dummy-jsonrpc.py] and [tools/fake-daemon.py]

    A shallow embedding of the two scripts, with the pieces of the Python
    runtime they call (str/bytes operations, the [json] encoder and decoder,
    a stream socket, [os.path.exists] / [os.remove]) written out as
    executable functions, followed by the properties of the scripts. *)

From Stdlib Require Import NArith ZArith List String Ascii Bool Lia.
From Stdlib.Strings Require Import Byte.
From Stdlib Require Import Decimal DecimalFacts DecimalPos DecimalN DecimalZ.
From stdpp Require Import base option list strings gmap.

Set Warnings "-register-all".
Open Scope N_scope.

(* ===================================================================== *)
(** * Part I: definitions                                                 *)
(* ===================================================================== *)

(** ** Python values the scripts handle *)

Module Py.

(** A Python [str] is a sequence of code points; [len] counts code points. *)
Abbreviation pystr := (list N).

(** A Python [bytes] object. *)
Abbreviation pybytes := (list byte).

(** An ASCII string literal of the source, as a [str]. *)
Definition lit (s : string) : pystr := map Byte.to_N (list_byte_of_string s).

(** An ASCII bytes literal of the source ([b"..."]). *)
Definition blit (s : string) : pybytes := list_byte_of_string s.

(** The exceptions that can escape from the modelled code. *)
Inductive exn : Type :=
| JSONDecodeError
| UnicodeDecodeError
| UnicodeEncodeError
| KeyError (key : pystr)
| TypeError
| IsADirectoryError
| FileNotFoundError
| AddressInUse
| IndexError
| RecursionError.

Inductive result (A : Type) : Type :=
| Ok (a : A)
| Raise (e : exn).
Arguments Ok {A} a.
Arguments Raise {A} e.

Definition bind {A B} (r : result A) (k : A -> result B) : result B :=
  match r with
  | Ok a => k a
  | Raise e => Raise e
  end.

(** The objects [json.loads] builds and [json.dumps] accepts.  A dict keeps
    its insertion order, which is the order [json.dumps] writes it in; its
    keys are [str] throughout both scripts.  A float is kept as the literal
    it was read from: the binary64 conversion is the interpreter's. *)
Inductive pyval : Type :=
| PNone
| PBool (b : bool)
| PInt (z : Z)
| PFloat (literal : pystr)
| PStr (s : pystr)
| PList (items : list pyval)
| PDict (pairs : list (pystr * pyval)).

Definition pystr_eqb (a b : pystr) : bool := bool_decide (a = b).

(** [d[key]] on a dict: the value stored under [key], or KeyError. *)
Fixpoint dict_get (pairs : list (pystr * pyval)) (key : pystr) : result pyval :=
  match pairs with
  | [] => Raise (KeyError key)
  | (k, v) :: rest => if pystr_eqb k key then Ok v else dict_get rest key
  end.

(** [obj[key]] with a [str] key.  Only a dict can be subscripted by a
    [str]; a list or a str wants an integer index, the other objects are not
    subscriptable: all of these raise TypeError. *)
Definition getitem (obj : pyval) (key : pystr) : result pyval :=
  match obj with
  | PDict pairs => dict_get pairs key
  | _ => Raise TypeError
  end.

(** [d[key] = v]: replaces the value in place when the key is present,
    appends the pair otherwise. *)
Fixpoint dict_set (pairs : list (pystr * pyval)) (key : pystr) (v : pyval)
  : list (pystr * pyval) :=
  match pairs with
  | [] => [(key, v)]
  | (k, w) :: rest =>
      if pystr_eqb k key then (k, v) :: rest else (k, w) :: dict_set rest key v
  end.

(** [dict(pairs)]. *)
Definition dict_of_pairs (pairs : list (pystr * pyval)) : list (pystr * pyval) :=
  fold_left (fun d kv => dict_set d (fst kv) (snd kv)) pairs [].

(** [sep.join(parts)]. *)
Fixpoint join {A} (sep : list A) (parts : list (list A)) : list A :=
  match parts with
  | [] => []
  | [p] => p
  | p :: rest => p ++ sep ++ join sep rest
  end.

(** *** Decimal text of an integer: [str(n)], [repr(n)] *)

Fixpoint uint_chars (d : Decimal.uint) : pystr :=
  match d with
  | Nil => []
  | D0 d => 48 :: uint_chars d
  | D1 d => 49 :: uint_chars d
  | D2 d => 50 :: uint_chars d
  | D3 d => 51 :: uint_chars d
  | D4 d => 52 :: uint_chars d
  | D5 d => 53 :: uint_chars d
  | D6 d => 54 :: uint_chars d
  | D7 d => 55 :: uint_chars d
  | D8 d => 56 :: uint_chars d
  | D9 d => 57 :: uint_chars d
  end.

Definition nat_repr (n : nat) : pystr := uint_chars (N.to_uint (N.of_nat n)).

Definition int_repr (z : Z) : pystr :=
  match Z.to_int z with
  | Pos d => uint_chars d
  | Neg d => 45 :: uint_chars d
  end.

(** *** [str.encode("utf-8")] *)

Definition byte_of (n : N) : byte := default x00 (Byte.of_N n).

Definition is_surrogate (c : N) : bool := (0xD800 <=? c) && (c <=? 0xDFFF).

(** The UTF-8 bytes of one code point; a surrogate cannot be encoded. *)
Definition utf8_encode_char (c : N) : result pybytes :=
  if c <? 0x80 then Ok [byte_of c]
  else if c <? 0x800 then
    Ok [byte_of (N.lor 0xC0 (N.shiftr c 6));
        byte_of (N.lor 0x80 (N.land c 0x3F))]
  else if c <? 0x10000 then
    if is_surrogate c then Raise UnicodeEncodeError
    else Ok [byte_of (N.lor 0xE0 (N.shiftr c 12));
             byte_of (N.lor 0x80 (N.land (N.shiftr c 6) 0x3F));
             byte_of (N.lor 0x80 (N.land c 0x3F))]
  else if c <? 0x110000 then
    Ok [byte_of (N.lor 0xF0 (N.shiftr c 18));
        byte_of (N.lor 0x80 (N.land (N.shiftr c 12) 0x3F));
        byte_of (N.lor 0x80 (N.land (N.shiftr c 6) 0x3F));
        byte_of (N.lor 0x80 (N.land c 0x3F))]
  else Raise UnicodeEncodeError.

Fixpoint str_encode (s : pystr) : result pybytes :=
  match s with
  | [] => Ok []
  | c :: rest =>
      bind (utf8_encode_char c) (fun bs =>
      bind (str_encode rest) (fun more => Ok (bs ++ more)))
  end.

End Py.

(** ** The [json] encoder, as [json.dumps(obj)] with its default arguments *)

Module Json.
Import Py.

(** The text [json.dumps] writes for the float that [json.loads] built from
    a literal (or from NaN, Infinity, -Infinity): [float.__repr__] after the
    binary64 conversion.  Floating point is not modelled; the conversion is
    a parameter of the encoder, of which only this is used: the text of a
    float is made of printable ASCII characters (digits, sign, point,
    exponent, or one of the three constants). *)
Class FloatRepr := {
  float_repr : pystr -> pystr;
  float_repr_printable : forall l, Forall (fun c => 32 <= c <= 126) (float_repr l)
}.

Definition hex_digit (n : N) : N := if n <? 10 then 48 + n else 87 + n.

(** ['{0:04x}'.format(n)] for [n < 0x10000]. *)
Definition hex4 (n : N) : pystr :=
  [hex_digit (N.land (N.shiftr n 12) 0xF);
   hex_digit (N.land (N.shiftr n 8) 0xF);
   hex_digit (N.land (N.shiftr n 4) 0xF);
   hex_digit (N.land n 0xF)].

(** The replacement of one character by [encode_basestring_ascii]: its
    regular expression selects the backslash, the double quote (34) and
    every character outside space..tilde; ESCAPE_DCT gives the short
    escapes, the rest is written as a u-escape of four hexadecimal digits,
    above the BMP as a surrogate pair.  (A string literal of this file has
    no escapes of its own: a backslash in it is a backslash.) *)
Definition escape_char (c : N) : pystr :=
  if c =? 92 then lit "\\"
  else if c =? 34 then [92; 34]
  else if (32 <=? c) && (c <=? 126) then [c]
  else if c =? 8 then lit "\b"
  else if c =? 12 then lit "\f"
  else if c =? 10 then lit "\n"
  else if c =? 13 then lit "\r"
  else if c =? 9 then lit "\t"
  else if c <? 0x10000 then lit "\u" ++ hex4 c
  else
    let n := c - 0x10000 in
    let s1 := N.lor 0xD800 (N.land (N.shiftr n 10) 0x3FF) in
    let s2 := N.lor 0xDC00 (N.land n 0x3FF) in
    lit "\u" ++ hex4 s1 ++ lit "\u" ++ hex4 s2.

Definition encode_basestring_ascii (s : pystr) : pystr :=
  [34] ++ concat (map escape_char s) ++ [34].

Fixpoint json_dumps `{FloatRepr} (v : pyval) : pystr :=
  match v with
  | PNone => lit "null"
  | PBool true => lit "true"
  | PBool false => lit "false"
  | PInt z => int_repr z
  | PFloat l => float_repr l
  | PStr s => encode_basestring_ascii s
  | PList items =>
      lit "[" ++ join (lit ", ") (map json_dumps items) ++ lit "]"
  | PDict pairs =>
      lit "{"
      ++ join (lit ", ")
           (map (fun kv => encode_basestring_ascii (fst kv) ++ lit ": "
                           ++ json_dumps (snd kv)) pairs)
      ++ lit "}"
  end.

(** *** [bytes.decode(encoding, 'surrogatepass')]

    The decoders work on the values of the bytes. *)

Inductive encoding : Type :=
| UTF8 | UTF8Sig | UTF16 | UTF16LE | UTF16BE | UTF32 | UTF32LE | UTF32BE.

Fixpoint starts_with {A} `{EqDecision A} (prefix l : list A) : bool :=
  match prefix, l with
  | [], _ => true
  | p :: prefix', x :: l' => bool_decide (p = x) && starts_with prefix' l'
  | _ :: _, [] => false
  end.

(** [json.detect_encoding]: a byte order mark first, then the pattern of
    zero bytes among the first four (or two) bytes. *)
Definition detect_encoding (b : list N) : encoding :=
  if starts_with [0x00; 0x00; 0xFE; 0xFF] b || starts_with [0xFF; 0xFE; 0x00; 0x00] b
  then UTF32
  else if starts_with [0xFE; 0xFF] b || starts_with [0xFF; 0xFE] b then UTF16
  else if starts_with [0xEF; 0xBB; 0xBF] b then UTF8Sig
  else
    match b with
    | b0 :: b1 :: b2 :: b3 :: _ =>
        if b0 =? 0 then (if b1 =? 0 then UTF32BE else UTF16BE)
        else if b1 =? 0 then
          (if negb (b2 =? 0) || negb (b3 =? 0) then UTF16LE else UTF32LE)
        else UTF8
    | [b0; b1] =>
        if b0 =? 0 then UTF16BE else if b1 =? 0 then UTF16LE else UTF8
    | _ => UTF8
    end.

Definition is_cont (b : N) : bool := (0x80 <=? b) && (b <=? 0xBF).

Definition cons_ok {A B} (a : A) (r : result (list A * B)) : result (list A * B) :=
  bind r (fun p => Ok (a :: fst p, snd p)).

Definition cons_res {A} (a : A) (r : result (list A)) : result (list A) :=
  bind r (fun l => Ok (a :: l)).

(** UTF-8: the well-formed sequences (no overlong form, nothing above
    U+10FFFF); with 'surrogatepass' the three-byte forms of the surrogates
    are accepted too. *)
Fixpoint utf8_decode (b : list N) : result pystr :=
  match b with
  | [] => Ok []
  | b0 :: r0 =>
      if b0 <? 0x80 then cons_res b0 (utf8_decode r0)
      else if (0xC2 <=? b0) && (b0 <=? 0xDF) then
        match r0 with
        | b1 :: r1 =>
            if is_cont b1
            then cons_res (N.lor (N.shiftl (N.land b0 0x1F) 6) (N.land b1 0x3F))
                          (utf8_decode r1)
            else Raise UnicodeDecodeError
        | _ => Raise UnicodeDecodeError
        end
      else if (0xE0 <=? b0) && (b0 <=? 0xEF) then
        match r0 with
        | b1 :: b2 :: r2 =>
            if is_cont b1 && is_cont b2 && ((0xE0 <? b0) || (0xA0 <=? b1))
            then cons_res (N.lor (N.shiftl (N.land b0 0x0F) 12)
                             (N.lor (N.shiftl (N.land b1 0x3F) 6) (N.land b2 0x3F)))
                          (utf8_decode r2)
            else Raise UnicodeDecodeError
        | _ => Raise UnicodeDecodeError
        end
      else if (0xF0 <=? b0) && (b0 <=? 0xF4) then
        match r0 with
        | b1 :: b2 :: b3 :: r3 =>
            if is_cont b1 && is_cont b2 && is_cont b3
               && ((0xF0 <? b0) || (0x90 <=? b1))
               && ((b0 <? 0xF4) || (b1 <=? 0x8F))
            then cons_res (N.lor (N.shiftl (N.land b0 0x07) 18)
                             (N.lor (N.shiftl (N.land b1 0x3F) 12)
                                (N.lor (N.shiftl (N.land b2 0x3F) 6) (N.land b3 0x3F))))
                          (utf8_decode r3)
            else Raise UnicodeDecodeError
        | _ => Raise UnicodeDecodeError
        end
      else Raise UnicodeDecodeError
  end.

(** UTF-16: the 16-bit units first, then the surrogate pairs; a surrogate
    that has no partner passes as it is. *)
Fixpoint utf16_units (big_endian : bool) (b : list N) : result (list N) :=
  match b with
  | [] => Ok []
  | [_] => Raise UnicodeDecodeError
  | x :: y :: r =>
      cons_res (if big_endian then x * 256 + y else y * 256 + x)
               (utf16_units big_endian r)
  end.

Definition is_high (c : N) : bool := (0xD800 <=? c) && (c <=? 0xDBFF).
Definition is_low (c : N) : bool := (0xDC00 <=? c) && (c <=? 0xDFFF).

Definition join_surrogates (hi lo : N) : N :=
  0x10000 + N.lor (N.shiftl (hi - 0xD800) 10) (lo - 0xDC00).

Fixpoint utf16_pairs (units : list N) : pystr :=
  match units with
  | [] => []
  | hi :: rest =>
      match rest with
      | lo :: rest' =>
          if is_high hi && is_low lo
          then join_surrogates hi lo :: utf16_pairs rest'
          else hi :: utf16_pairs rest
      | [] => [hi]
      end
  end.

Definition utf16_decode (big_endian : bool) (b : list N) : result pystr :=
  bind (utf16_units big_endian b) (fun units => Ok (utf16_pairs units)).

Fixpoint utf32_decode (big_endian : bool) (b : list N) : result pystr :=
  match b with
  | [] => Ok []
  | w :: x :: y :: z :: r =>
      let c := if big_endian
               then ((w * 256 + x) * 256 + y) * 256 + z
               else ((z * 256 + y) * 256 + x) * 256 + w in
      if c <? 0x110000 then cons_res c (utf32_decode big_endian r)
      else Raise UnicodeDecodeError
  | _ => Raise UnicodeDecodeError
  end.

Definition bytes_decode (enc : encoding) (b : list N) : result pystr :=
  match enc with
  | UTF8 => utf8_decode b
  | UTF8Sig =>
      if starts_with [0xEF; 0xBB; 0xBF] b then utf8_decode (drop 3 b)
      else utf8_decode b
  | UTF16LE => utf16_decode false b
  | UTF16BE => utf16_decode true b
  | UTF16 =>
      if starts_with [0xFE; 0xFF] b then utf16_decode true (drop 2 b)
      else if starts_with [0xFF; 0xFE] b then utf16_decode false (drop 2 b)
      else utf16_decode false b
  | UTF32LE => utf32_decode false b
  | UTF32BE => utf32_decode true b
  | UTF32 =>
      if starts_with [0x00; 0x00; 0xFE; 0xFF] b then utf32_decode true (drop 4 b)
      else if starts_with [0xFF; 0xFE; 0x00; 0x00] b then utf32_decode false (drop 4 b)
      else utf32_decode false b
  end.

(** *** The [json] decoder, as [json.loads(s)] on a [bytes] argument *)

(** WHITESPACE: space, tab, line feed, carriage return. *)
Definition is_ws (c : N) : bool := (c =? 32) || (c =? 9) || (c =? 10) || (c =? 13).

Fixpoint skip_ws (s : pystr) : pystr :=
  match s with
  | c :: r => if is_ws c then skip_ws r else s
  | [] => []
  end.

Definition is_digit (c : N) : bool := (48 <=? c) && (c <=? 57).

Definition hex_val (c : N) : option N :=
  if is_digit c then Some (c - 48)
  else if (97 <=? c) && (c <=? 102) then Some (c - 87)
  else if (65 <=? c) && (c <=? 70) then Some (c - 55)
  else None.

(** The four hexadecimal digits of a u-escape. *)
Definition decode_uXXXX (h1 h2 h3 h4 : N) : option N :=
  match hex_val h1, hex_val h2, hex_val h3, hex_val h4 with
  | Some a, Some b, Some c, Some d => Some (((a * 16 + b) * 16 + c) * 16 + d)
  | _, _, _, _ => None
  end.

(** BACKSLASH: the one-character escapes. *)
Definition backslash (e : N) : option N :=
  if e =? 34 then Some 34
  else if e =? 92 then Some 92
  else if e =? 47 then Some 47
  else if e =? 98 then Some 8
  else if e =? 102 then Some 12
  else if e =? 110 then Some 10
  else if e =? 114 then Some 13
  else if e =? 116 then Some 9
  else None.

(** [scanstring] (strict), from the character after the opening quote: the
    string and the text after its closing quote. *)
Fixpoint scanstring (s : pystr) : result (pystr * pystr) :=
  match s with
  | [] => Raise JSONDecodeError
  | c :: r =>
      if c =? 34 then Ok ([], r)
      else if c =? 92 then
        match r with
        | [] => Raise JSONDecodeError
        | e :: r1 =>
            if e =? 117 then
              match r1 with
              | h1 :: h2 :: h3 :: h4 :: r2 =>
                  match decode_uXXXX h1 h2 h3 h4 with
                  | None => Raise JSONDecodeError
                  | Some uni =>
                      match r2 with
                      | e1 :: e2 :: k1 :: k2 :: k3 :: k4 :: r3 =>
                          if is_high uni && (e1 =? 92) && (e2 =? 117) then
                            match decode_uXXXX k1 k2 k3 k4 with
                            | None => Raise JSONDecodeError
                            | Some uni2 =>
                                if is_low uni2
                                then cons_ok (join_surrogates uni uni2) (scanstring r3)
                                else cons_ok uni (scanstring r2)
                            end
                          else cons_ok uni (scanstring r2)
                      | _ => cons_ok uni (scanstring r2)
                      end
                  end
              | _ => Raise JSONDecodeError
              end
            else
              match backslash e with
              | Some ch => cons_ok ch (scanstring r1)
              | None => Raise JSONDecodeError
              end
        end
      else if c <? 32 then Raise JSONDecodeError
      else cons_ok c (scanstring r)
  end.

(** The longest run of decimal digits at the front, and what follows. *)
Fixpoint span_digits (s : pystr) : pystr * pystr :=
  match s with
  | c :: r =>
      if is_digit c then let (ds, rest) := span_digits r in (c :: ds, rest)
      else ([], s)
  | [] => ([], [])
  end.

Definition digit_uint (c : N) (d : Decimal.uint) : Decimal.uint :=
  if c =? 48 then D0 d else if c =? 49 then D1 d else if c =? 50 then D2 d
  else if c =? 51 then D3 d else if c =? 52 then D4 d else if c =? 53 then D5 d
  else if c =? 54 then D6 d else if c =? 55 then D7 d else if c =? 56 then D8 d
  else D9 d.

Definition uint_of_chars (ds : pystr) : Decimal.uint := foldr digit_uint Nil ds.

(** [int(text)] on a run of decimal digits with an optional minus sign. *)
Definition int_of_digits (negative : bool) (ds : pystr) : Z :=
  Z.of_int (if negative then Neg (uint_of_chars ds) else Pos (uint_of_chars ds)).

(** The number at the front of [s], as NUMBER_RE matches it: an optional
    minus, then 0 or a run of digits that does not start with 0, then an
    optional fraction (a point and digits), then an optional exponent (e or
    E, an optional sign, digits).  A fraction or an exponent makes a float;
    otherwise the digits are an int. *)
Definition number_sign (s : pystr) : bool * pystr :=
  match s with
  | c :: r => if c =? 45 then (true, r) else (false, s)
  | [] => (false, s)
  end.

Definition number_integer (s : pystr) : option (pystr * pystr) :=
  match s with
  | c :: r =>
      if (49 <=? c) && (c <=? 57)
      then let (ds, rest) := span_digits r in Some (c :: ds, rest)
      else if c =? 48 then Some ([c], r)
      else None
  | [] => None
  end.

Definition number_fraction (s : pystr) : pystr * pystr :=
  match s with
  | p :: d :: r =>
      if (p =? 46) && is_digit d
      then let (ds, rest) := span_digits r in (p :: d :: ds, rest)
      else ([], s)
  | _ => ([], s)
  end.

Definition number_exponent (s : pystr) : pystr * pystr :=
  match s with
  | e :: r =>
      if (e =? 101) || (e =? 69) then
        let (sign, r1) :=
          match r with
          | sg :: r' => if (sg =? 45) || (sg =? 43) then ([sg], r') else ([], r)
          | [] => ([], r)
          end in
        match span_digits r1 with
        | ([], _) => ([], s)
        | (ds, rest) => (e :: sign ++ ds, rest)
        end
      else ([], s)
  | [] => ([], s)
  end.

Definition match_number (s : pystr) : option (pyval * pystr) :=
  let (negative, s1) := number_sign s in
  match number_integer s1 with
  | None => None
  | Some (ipart, s2) =>
      let (frac, s3) := number_fraction s2 in
      let (expo, s4) := number_exponent s3 in
      match frac, expo with
      | [], [] => Some (PInt (int_of_digits negative ipart), s4)
      | _, _ =>
          Some (PFloat ((if negative then [45] else []) ++ ipart ++ frac ++ expo), s4)
      end
  end.

(** [scan_once], with the loops of JSONArray and JSONObject.  Every call
    takes one unit of [depth]; running out of it is Python's RecursionError.
    [array_items] starts at the first character of an item, [object_items]
    after the opening quote of a key. *)
Fixpoint scan_once (depth : nat) (s : pystr) : result (pyval * pystr) :=
  match depth with
  | O => Raise RecursionError
  | S depth' =>
      match s with
      | [] => Raise JSONDecodeError
      | c :: r =>
          if c =? 34 then
            bind (scanstring r) (fun p => Ok (PStr (fst p), snd p))
          else if c =? 123 then
            match skip_ws r with
            | c1 :: r1 =>
                if c1 =? 125 then Ok (PDict [], r1)
                else if c1 =? 34 then
                  bind (object_items depth' r1) (fun p =>
                    Ok (PDict (dict_of_pairs (fst p)), snd p))
                else Raise JSONDecodeError
            | [] => Raise JSONDecodeError
            end
          else if c =? 91 then
            match skip_ws r with
            | c1 :: r1 =>
                if c1 =? 93 then Ok (PList [], r1)
                else bind (array_items depth' (c1 :: r1)) (fun p =>
                       Ok (PList (fst p), snd p))
            | [] => Raise JSONDecodeError
            end
          else if starts_with (lit "null") s then Ok (PNone, drop 4 s)
          else if starts_with (lit "true") s then Ok (PBool true, drop 4 s)
          else if starts_with (lit "false") s then Ok (PBool false, drop 5 s)
          else
            match match_number s with
            | Some p => Ok p
            | None =>
                if starts_with (lit "NaN") s then Ok (PFloat (lit "NaN"), drop 3 s)
                else if starts_with (lit "Infinity") s
                then Ok (PFloat (lit "Infinity"), drop 8 s)
                else if starts_with (lit "-Infinity") s
                then Ok (PFloat (lit "-Infinity"), drop 9 s)
                else Raise JSONDecodeError
            end
      end
  end

with array_items (depth : nat) (s : pystr) : result (list pyval * pystr) :=
  match depth with
  | O => Raise RecursionError
  | S depth' =>
      bind (scan_once depth' s) (fun p =>
        let (value, r) := p in
        match skip_ws r with
        | c :: r1 =>
            if c =? 93 then Ok ([value], r1)
            else if c =? 44 then cons_ok value (array_items depth' (skip_ws r1))
            else Raise JSONDecodeError
        | [] => Raise JSONDecodeError
        end)
  end

with object_items (depth : nat) (s : pystr)
  : result (list (pystr * pyval) * pystr) :=
  match depth with
  | O => Raise RecursionError
  | S depth' =>
      bind (scanstring s) (fun p =>
        let (key, r) := p in
        match skip_ws r with
        | c :: r1 =>
            if c =? 58 then
              bind (scan_once depth' (skip_ws r1)) (fun q =>
                let (value, r2) := q in
                match skip_ws r2 with
                | c2 :: r3 =>
                    if c2 =? 125 then Ok ([(key, value)], r3)
                    else if c2 =? 44 then
                      match skip_ws r3 with
                      | c3 :: r4 =>
                          if c3 =? 34
                          then cons_ok (key, value) (object_items depth' r4)
                          else Raise JSONDecodeError
                      | [] => Raise JSONDecodeError
                      end
                    else Raise JSONDecodeError
                | [] => Raise JSONDecodeError
                end)
            else Raise JSONDecodeError
        | [] => Raise JSONDecodeError
        end)
  end.

(** [JSONDecoder.decode]: one value between optional whitespace, and
    nothing after it.  The depth given is never used up (see
    [decode_depth_suffices]). *)
Definition decode (s : pystr) : result pyval :=
  let s0 := skip_ws s in
  bind (scan_once (2 * length s0 + 2) s0) (fun p =>
    match skip_ws (snd p) with
    | [] => Ok (fst p)
    | _ :: _ => Raise JSONDecodeError
    end).

Definition json_loads (b : pybytes) : result pyval :=
  let values := map Byte.to_N b in
  bind (bytes_decode (detect_encoding values) values) decode.

(** *** The messages JSON can carry *)

(** A Unicode scalar value: a code point that is no surrogate. *)
Definition is_scalar (c : N) : bool := (c <? 0x110000) && negb (is_surrogate c).

(** The representable messages: no float; every string,
    the keys too, a sequence of Unicode scalar values; no key twice in a
    dict. *)
Fixpoint representable (v : pyval) : bool :=
  match v with
  | PNone | PBool _ | PInt _ => true
  | PFloat _ => false
  | PStr s => forallb is_scalar s
  | PList items => forallb representable items
  | PDict pairs =>
      bool_decide (NoDup (map fst pairs))
      && forallb (fun kv => forallb is_scalar (fst kv) && representable (snd kv)) pairs
  end.

End Json.

(** ** tools/dummy-jsonrpc.py *)

Module DummyJsonrpc.
Import Py Json.

(** [str(Path(file).resolve())]: the absolute path the file argument
    resolves to, which depends on the working directory and on the symbolic
    links of the file system the script runs in. *)
Class PathResolve := path_resolve : pystr -> pystr.

(** The [choices] of [--message-type]. *)
Inductive message_type : Type := MsgOpen | MsgEdit.

Definition message_type_str (t : message_type) : pystr :=
  match t with
  | MsgOpen => lit "open"
  | MsgEdit => lit "edit"
  end.

(** What [parser.parse_args()] returns. *)
Record args : Type := { args_message_type : message_type; args_file : pystr }.

Definition position (line character : Z) : pyval :=
  PDict [(lit "line", PInt line); (lit "character", PInt character)].

Section Script.
Context `{FloatRepr} `{PathResolve}.

Definition uri (a : args) : pystr := lit "file://" ++ path_resolve (args_file a).

Definition messages (a : args) : pyval :=
  PDict
    [(lit "open",
      PDict
        [(lit "jsonrpc", PStr (lit "2.0"));
         (lit "id", PInt 1);
         (lit "method", PStr (lit "open"));
         (lit "params", PDict [(lit "uri", PStr (uri a))])]);
     (lit "edit",
      PDict
        [(lit "jsonrpc", PStr (lit "2.0"));
         (lit "method", PStr (lit "edit"));
         (lit "id", PInt 2);
         (lit "params",
          PDict
            [(lit "uri", PStr (uri a));
             (lit "revision", PInt 0);
             (lit "delta",
              PList
                [PDict
                   [(lit "range",
                     PDict [(lit "start", position 0 0);
                            (lit "end", position 0 0)]);
                    (lit "replacement", PStr (lit "hello, world"))]])])])].

(** [messages[args.message_type]]. *)
Definition message (a : args) : result pyval :=
  getitem (messages a) (message_type_str (args_message_type a)).

Definition message_json (a : args) : result pystr :=
  bind (message a) (fun m => Ok (json_dumps m)).

(** The text handed to [print], which then writes its own newline. *)
Definition printed (a : args) : result pystr :=
  bind (message_json a) (fun body =>
    Ok (lit "Content-Length: " ++ nat_repr (length body)
        ++ [13; 10; 13; 10] ++ body ++ [10])).

(** The bytes the script writes to its standard output. *)
Definition stdout (a : args) : result pybytes :=
  bind (printed a) str_encode.

End Script.

End DummyJsonrpc.

(** ** tools/fake-daemon.py *)

Module FakeDaemon.
Import Py Json.

Definition socket_path : string := "/tmp/teamtype-test/.teamtype/socket".

(** *** The file system, as far as the script touches it

    A path names at most one entry.  Paths are looked up whole (the
    directories above an entry are not walked), the target of a symbolic
    link is a path of the same map, and permissions are not modelled. *)
Inductive node : Type :=
| RegularFile
| SocketFile
| Directory
| Symlink (target : string)
| SpecialFile.

Abbreviation filesystem := (gmap string node).

(** [os.stat]: follows symbolic links, at most [hops] of them. *)
Fixpoint stat (fs : filesystem) (hops : nat) (path : string) : option node :=
  match fs !! path with
  | Some (Symlink target) =>
      match hops with
      | O => None
      | S hops' => stat fs hops' target
      end
  | other => other
  end.

(** [os.path.exists(path)]: whether [os.stat(path)] succeeds. *)
Definition os_path_exists (fs : filesystem) (path : string) : bool :=
  match stat fs 40 path with
  | Some _ => true
  | None => false
  end.

(** [os.remove(path)]: unlinks the entry itself (a symbolic link is not
    followed); a directory is refused. *)
Definition os_remove (fs : filesystem) (path : string) : result filesystem :=
  match fs !! path with
  | None => Raise FileNotFoundError
  | Some Directory => Raise IsADirectoryError
  | Some _ => Ok (delete path fs)
  end.

(** [server.bind(path)] on an AF_UNIX socket: creates the socket file, and
    fails when the path is taken by any entry. *)
Definition server_bind (fs : filesystem) (path : string) : result filesystem :=
  match fs !! path with
  | Some _ => Raise AddressInUse
  | None => Ok (<[path := SocketFile]> fs)
  end.

(** Lines 31-32: [if os.path.exists(socket_path): os.remove(socket_path)]. *)
Definition remove_stale_socket (fs : filesystem) : result filesystem :=
  if os_path_exists fs socket_path then os_remove fs socket_path else Ok fs.

(** *** A connected stream socket

    [pending] holds what the peer has written and the daemon has not read
    yet, in the segments in which it becomes readable; [closed] tells
    whether the peer closes its end after them (otherwise it stays
    connected and silent); [sent] is everything the daemon has handed to
    [conn.send], in order. *)
Record conn : Type := Conn {
  pending : list pybytes;
  closed : bool;
  sent : pybytes
}.

(** How a computation on a connection ends: with a value, with an
    exception, waiting for ever in a blocking call, or (for a loop that was
    given a number of iterations) still running. *)
Inductive outcome (A : Type) : Type :=
| Ret (a : A)
| Exc (e : exn)
| Blocked
| Running.
Arguments Ret {A} a.
Arguments Exc {A} e.
Arguments Blocked {A}.
Arguments Running {A}.

Definition io (A : Type) : Type := conn -> outcome A * conn.

Definition io_ret {A} (a : A) : io A := fun c => (Ret a, c).

Definition io_bind {A B} (m : io A) (k : A -> io B) : io B :=
  fun c =>
    match m c with
    | (Ret a, c') => k a c'
    | (Exc e, c') => (Exc e, c')
    | (Blocked, c') => (Blocked, c')
    | (Running, c') => (Running, c')
    end.

Definition io_lift {A} (r : result A) : io A :=
  fun c =>
    match r with
    | Ok a => (Ret a, c)
    | Raise e => (Exc e, c)
    end.

#[global] Instance io_mret : MRet io := @io_ret.
#[global] Instance io_mbind : MBind io := fun A B k m => io_bind m k.

(** The first readable segment, cut at [bufsize] bytes; segments without
    bytes are not seen. *)
Fixpoint recv_segments (bufsize : nat) (segs : list pybytes)
  : option (pybytes * list pybytes) :=
  match segs with
  | [] => None
  | seg :: rest =>
      match seg with
      | [] => recv_segments bufsize rest
      | _ :: _ =>
          if (length seg <=? bufsize)%nat then Some (seg, rest)
          else Some (take bufsize seg, drop bufsize seg :: rest)
      end
  end.

(** [conn.recv(bufsize)]: at most [bufsize] of the bytes that are there;
    the empty bytes object once the peer has closed; blocks otherwise. *)
Definition recv (bufsize : nat) : io pybytes :=
  fun c =>
    match recv_segments bufsize (pending c) with
    | Some (data, rest) => (Ret data, Conn rest (closed c) (sent c))
    | None =>
        if closed c then (Ret [], Conn [] (closed c) (sent c))
        else (Blocked, c)
    end.

(** [conn.send(data)]. *)
Definition conn_send (data : pybytes) : io unit :=
  fun c => (Ret tt, Conn (pending c) (closed c) (sent c ++ data)).

(** *** [bytes.strip()] and [bytes.split(sep)] *)

(** ASCII whitespace: space, tab, line feed, vertical tab, form feed,
    carriage return. *)
Definition is_space (b : byte) : bool :=
  match b with
  | x20 | x09 | x0a | x0b | x0c | x0d => true
  | _ => false
  end.

Fixpoint lstrip (b : pybytes) : pybytes :=
  match b with
  | c :: r => if is_space c then lstrip r else b
  | [] => []
  end.

Definition strip (b : pybytes) : pybytes := rev (lstrip (rev (lstrip b))).

Fixpoint split (sep : byte) (b : pybytes) : list pybytes :=
  match b with
  | [] => [[]]
  | c :: r =>
      if Byte.eqb c sep then [] :: split sep r
      else
        match split sep r with
        | line :: lines => (c :: line) :: lines
        | [] => [[c]]
        end
  end.

(** [l[0]]. *)
Definition first {A} (l : list A) : result A :=
  match l with
  | x :: _ => Ok x
  | [] => Raise IndexError
  end.

Section Script.
Context `{FloatRepr}.

(** The messages the daemon prints on its own standard output are left
    out: they are no part of the connection. *)

(** Lines 17-22.  "Returns the next JSON-RPC object." *)
Definition read_line : io pyval :=
  bytes ← recv 1024;
  let lines := split x0a (strip bytes) in
  result ← io_lift (bind (first lines) json_loads);
  mret result.

(** Lines 25-29. *)
Definition send (json_ : pyval) : io unit :=
  let message_json := json_dumps json_ in
  data ← io_lift (str_encode message_json);
  conn_send data;;
  conn_send [x0a].

(** Line 42. *)
Definition response (open : pyval) : result pyval :=
  bind (getitem open (lit "id")) (fun id =>
    Ok (PDict [(lit "jsonrpc", PStr (lit "2.0"));
               (lit "id", id);
               (lit "result", PStr (lit "success"))])).

Definition position (line character : Z) : pyval :=
  PDict [(lit "line", PInt line); (lit "character", PInt character)].

(** Lines 44-60. *)
Definition the_beautiful_edit (open : pyval) : result pyval :=
  bind (getitem open (lit "params")) (fun params =>
  bind (getitem params (lit "uri")) (fun uri =>
    Ok (PDict
          [(lit "jsonrpc", PStr (lit "2.0"));
           (lit "method", PStr (lit "edit"));
           (lit "params",
            PDict
              [(lit "uri", uri);
               (lit "revision", PInt 0);
               (lit "delta",
                PList
                  [PDict
                     [(lit "range",
                       PDict [(lit "start", position 0 0);
                              (lit "end", position 0 1)]);
                      (lit "replacement", PStr (lit "AaA"))]])])]))).

(** Lines 40-61: the body of the outer loop up to the inner loop. *)
Definition greet : io unit :=
  open ← read_line;
  response ← io_lift (response open);
  send response;;
  the_beautiful_edit ← io_lift (the_beautiful_edit open);
  send the_beautiful_edit.

(** Lines 62-63, [while True: read_line(conn)], for at most [iterations]
    iterations. *)
Fixpoint drain (iterations : nat) : io unit :=
  match iterations with
  | O => fun c => (Running, c)
  | S n => read_line;; drain n
  end.

(** A bound on the calls of [recv] that return bytes. *)
Definition unread (c : conn) : nat :=
  length (concat (pending c)) + length (pending c).

(** The inner loop, run to its end: every iteration but the last takes
    bytes from the connection, so one more than [unread c] iterations are
    enough (see [drain_loop_ends]). *)
Definition drain_loop : io unit :=
  fun c => drain (S (unread c)) c.

(** Lines 40-63: what the daemon does with one accepted connection. *)
Definition serve : io unit :=
  greet;; drain_loop.

(** The daemon as a whole.  [served] are the connections it accepted, in
    order, as it left them; [waiting] are those it never accepted. *)
Record run : Type := Run {
  status : outcome unit;
  files : filesystem;
  served : list conn;
  waiting : list conn
}.

(** Lines 36-63: [server.accept()] takes the next connection of the
    backlog, and blocks when there is none. *)
Fixpoint accept_loop (fs : filesystem) (backlog served : list conn) : run :=
  match backlog with
  | [] => Run Blocked fs served []
  | c :: rest =>
      match serve c with
      | (Ret _, c') => accept_loop fs rest (served ++ [c'])
      | (ending, c') => Run ending fs (served ++ [c']) rest
      end
  end.

(** The script from its first statement on. *)
Definition main (fs : filesystem) (backlog : list conn) : run :=
  match remove_stale_socket fs with
  | Raise e => Run (Exc e) fs [] backlog
  | Ok fs1 =>
      match server_bind fs1 socket_path with
      | Raise e => Run (Exc e) fs1 [] backlog
      | Ok fs2 => accept_loop fs2 backlog []
      end
  end.

End Script.

(** The frame [send] writes for a message. *)
Definition frame `{FloatRepr} (m : pyval) : result pybytes :=
  bind (str_encode (json_dumps m)) (fun data => Ok (data ++ [x0a])).

End FakeDaemon.

(** ** Sample messages and connections *)

Module Examples.
Import Py Json FakeDaemon.

(** An encoder for messages that hold no float: whatever it writes for a
    float is never asked for. *)
Definition no_floats : FloatRepr :=
  {| float_repr := fun _ => lit "NaN";
     float_repr_printable := fun _ =>
       ltac:(repeat constructor; discriminate) |}.

(** A JSON text written with apostrophes where it has double quotes. *)
Definition quoted (s : string) : pybytes :=
  map (fun b => if Byte.eqb b x27 then x22 else b) (list_byte_of_string s).

(** The request of a peer that opens [uri]. *)
Definition open_request (id : Z) (uri : pystr) : pyval :=
  PDict [(lit "jsonrpc", PStr (lit "2.0"));
         (lit "id", PInt id);
         (lit "method", PStr (lit "open"));
         (lit "params", PDict [(lit "uri", PStr uri)])].

(** The bytes of a message as a peer would send it. *)
Definition wire (m : pyval) : pybytes :=
  match @frame no_floats m with
  | Ok data => data
  | Raise _ => []
  end.

(** A fresh connection on which the given segments arrive. *)
Definition incoming (segments : list pybytes) (closes : bool) : conn :=
  Conn segments closes [].

(** The other end of a connection: everything that was sent on it arrives
    in one piece. *)
Definition loopback (c : conn) : conn := Conn [sent c] false [].

(** A resolver for the sample runs: every file is taken to lie in the
    root directory. *)
Definition in_root : DummyJsonrpc.PathResolve := fun file => 47 :: file.

(** A message whose JSON text is longer than 1024 bytes. *)
Definition long_message : pyval := open_request 1 (lit "file:///" ++ repeat 97 1100%nat).

End Examples.

(* ===================================================================== *)
(** * Part II: properties                                                 *)
(* ===================================================================== *)

(** ** Characters, digits and the two encoders *)

Module TextFacts.
Import Py Json.

(** Structural induction on [pyval], through the lists of its items and
    pairs. *)
Section PyvalInd.
Variable P : pyval -> Prop.
Hypothesis HNone : P PNone.
Hypothesis HBool : forall b, P (PBool b).
Hypothesis HInt : forall z, P (PInt z).
Hypothesis HFloat : forall l, P (PFloat l).
Hypothesis HStr : forall s, P (PStr s).
Hypothesis HList : forall items, Forall P items -> P (PList items).
Hypothesis HDict :
  forall pairs, Forall (fun kv => P (snd kv)) pairs -> P (PDict pairs).

Fixpoint pyval_nested_ind (v : pyval) : P v :=
  match v with
  | PNone => HNone
  | PBool b => HBool b
  | PInt z => HInt z
  | PFloat l => HFloat l
  | PStr s => HStr s
  | PList items =>
      HList items
        ((fix all (l : list pyval) : Forall P l :=
            match l with
            | [] => @List.Forall_nil _ P
            | x :: l' => @List.Forall_cons _ P x l' (pyval_nested_ind x) (all l')
            end) items)
  | PDict pairs =>
      HDict pairs
        ((fix all (l : list (pystr * pyval)) : Forall (fun kv => P (snd kv)) l :=
            match l with
            | [] => @List.Forall_nil _ _
            | kv :: l' =>
                @List.Forall_cons _ (fun kv => P (snd kv)) kv l'
                  (pyval_nested_ind (snd kv)) (all l')
            end) pairs)
  end.
End PyvalInd.

Definition ascii (c : N) : Prop := c < 128.

Definition printable (c : N) : Prop := 32 <= c <= 126.

Lemma byte_of_to_N (c : N) : c < 256 -> Byte.to_N (byte_of c) = c.
Proof.
  intros Hc. unfold byte_of.
  destruct (Byte.of_N c) as [b|] eqn:E.
  - simpl. now apply Byte.to_of_N.
  - apply Byte.of_N_None_iff in E. lia.
Qed.

Lemma to_N_byte_of (b : byte) : byte_of (Byte.to_N b) = b.
Proof. unfold byte_of. now rewrite Byte.of_to_N. Qed.

Lemma utf8_encode_char_ascii (c : N) : ascii c -> utf8_encode_char c = Ok [byte_of c].
Proof.
  unfold ascii, utf8_encode_char. intros Hc.
  destruct (c <? 128) eqn:E; [reflexivity|]. apply N.ltb_ge in E. lia.
Qed.

(** An ASCII text encodes to one byte per character. *)
Lemma str_encode_ascii (s : pystr) :
  Forall ascii s -> str_encode s = Ok (map byte_of s).
Proof.
  induction 1 as [|c s Hc Hs IH]; simpl; [reflexivity|].
  rewrite (utf8_encode_char_ascii c Hc). simpl. rewrite IH. reflexivity.
Qed.

Lemma forallb_printable (s : pystr) :
  forallb (fun c => (32 <=? c) && (c <=? 126)) s = true -> Forall printable s.
Proof.
  induction s as [|c s IH]; simpl; intros Hs; constructor;
    apply andb_true_iff in Hs as [Hc Hs]; [|auto].
  apply andb_true_iff in Hc as [Hlo Hhi]. apply N.leb_le in Hlo, Hhi.
  split; assumption.
Qed.

Lemma lit_printable (s : string) :
  forallb (fun c => (32 <=? c) && (c <=? 126)) (lit s) = true -> Forall printable (lit s).
Proof. apply forallb_printable. Qed.

Lemma uint_chars_digits (d : Decimal.uint) :
  Forall (fun c => 48 <= c <= 57) (uint_chars d).
Proof. induction d; simpl; constructor; auto; lia. Qed.

Lemma uint_chars_printable (d : Decimal.uint) : Forall printable (uint_chars d).
Proof.
  eapply Forall_impl; [apply uint_chars_digits|]. unfold printable. simpl. lia.
Qed.

Lemma int_repr_printable (z : Z) : Forall printable (int_repr z).
Proof.
  unfold int_repr. destruct (Z.to_int z).
  - apply uint_chars_printable.
  - constructor; [unfold printable; lia | apply uint_chars_printable].
Qed.

Lemma hex_digit_printable (n : N) : printable (hex_digit (N.land n 0xF)).
Proof.
  assert (Hn : N.land n 0xF < 16).
  { change 0xF with (N.ones 4). rewrite N.land_ones. now apply N.mod_lt. }
  unfold printable, hex_digit. destruct (N.land n 15 <? 10); lia.
Qed.

Lemma hex4_printable (n : N) : Forall printable (hex4 n).
Proof. unfold hex4. repeat constructor; apply hex_digit_printable. Qed.

Lemma escape_char_printable (c : N) : Forall printable (escape_char c).
Proof.
  unfold escape_char.
  repeat match goal with
         | |- context [if ?b then _ else _] => destruct b eqn:?
         end;
    repeat (apply Forall_app; split);
    try apply hex4_printable;
    try (apply lit_printable; reflexivity);
    try (repeat constructor; unfold printable; lia).
  constructor; [|constructor].
  apply andb_true_iff in Heqb1 as [Hlo Hhi]. apply N.leb_le in Hlo, Hhi.
  unfold printable. lia.
Qed.

Lemma concat_printable (parts : list pystr) :
  Forall (Forall printable) parts -> Forall printable (concat parts).
Proof.
  induction 1; simpl; [constructor|]. apply Forall_app. split; assumption.
Qed.

Lemma encode_basestring_printable (s : pystr) :
  Forall printable (encode_basestring_ascii s).
Proof.
  unfold encode_basestring_ascii.
  apply Forall_app. split; [repeat constructor; unfold printable; lia|].
  apply Forall_app. split; [|repeat constructor; unfold printable; lia].
  apply concat_printable. induction s; simpl; constructor;
    [apply escape_char_printable | assumption].
Qed.

Lemma join_printable (sep : pystr) (parts : list pystr) :
  Forall printable sep -> Forall (Forall printable) parts -> Forall printable (join sep parts).
Proof.
  intros Hsep. induction 1 as [|p parts Hp Hparts IH]; simpl; [constructor|].
  destruct parts as [|q parts]; [assumption|].
  apply Forall_app. split; [assumption|].
  apply Forall_app. split; assumption.
Qed.

(** Whatever the object, [json.dumps] writes printable ASCII characters
    only: this is what ensure_ascii, its default, is for. *)
Lemma json_dumps_printable `{FloatRepr} (v : pyval) : Forall printable (json_dumps v).
Proof.
  induction v as [| [|] | z | l | s | items IH | pairs IH] using pyval_nested_ind;
    cbn [json_dumps].
  - apply lit_printable; reflexivity.
  - apply lit_printable; reflexivity.
  - apply lit_printable; reflexivity.
  - apply int_repr_printable.
  - apply float_repr_printable.
  - apply encode_basestring_printable.
  - apply Forall_app. split; [apply lit_printable; reflexivity|].
    apply Forall_app. split; [|apply lit_printable; reflexivity].
    apply join_printable; [apply lit_printable; reflexivity|].
    induction IH; cbn [map]; constructor; auto.
  - apply Forall_app. split; [apply lit_printable; reflexivity|].
    apply Forall_app. split; [|apply lit_printable; reflexivity].
    apply join_printable; [apply lit_printable; reflexivity|].
    induction IH as [|kv pairs Hkv _ IHp]; cbn [map]; constructor; auto.
    apply Forall_app. split; [apply encode_basestring_printable|].
    apply Forall_app. split; [apply lit_printable; reflexivity | assumption].
Qed.

Lemma printable_ascii (s : pystr) : Forall printable s -> Forall ascii s.
Proof.
  intros Hs. eapply Forall_impl; [exact Hs|].
  unfold printable, ascii. simpl. lia.
Qed.

Lemma json_dumps_ascii `{FloatRepr} (v : pyval) : Forall ascii (json_dumps v).
Proof. apply printable_ascii, json_dumps_printable. Qed.

(** [json.dumps(obj).encode("utf-8")] never fails, and has one byte per
    character of the text. *)
Lemma json_dumps_encodes `{FloatRepr} (v : pyval) :
  str_encode (json_dumps v) = Ok (map byte_of (json_dumps v)).
Proof. apply str_encode_ascii, json_dumps_ascii. Qed.

Lemma digit_uint_chars (d : Decimal.uint) : uint_of_chars (uint_chars d) = d.
Proof.
  unfold uint_of_chars.
  induction d as [|d IH|d IH|d IH|d IH|d IH|d IH|d IH|d IH|d IH|d IH];
    [reflexivity|..]; cbn [uint_chars foldr]; rewrite IH; reflexivity.
Qed.

(** The decimal text of a length reads back as that length. *)
Lemma nat_repr_value (n : nat) :
  int_of_digits false (nat_repr n) = Z.of_nat n.
Proof.
  unfold int_of_digits, nat_repr. rewrite digit_uint_chars.
  simpl. unfold Z.of_uint.
  change (Pos.of_uint (N.to_uint (N.of_nat n))) with (N.of_uint (N.to_uint (N.of_nat n))).
  rewrite DecimalN.Unsigned.of_to. apply nat_N_Z.
Qed.

End TextFacts.

(** ** The decoder *)

Module JsonFacts.
Import Py Json TextFacts.

(** What a scanner's result must satisfy: on success it has consumed
    input; it does not fail for want of depth when [enough] holds. *)
Definition scanned {A} (enough : Prop) (s : pystr) (res : result (A * pystr)) : Prop :=
  match res with
  | Ok (_, rest) => (length rest < length s)%nat
  | Raise e => enough -> e <> RecursionError
  end.

Lemma skip_ws_length (s : pystr) : (length (skip_ws s) <= length s)%nat.
Proof.
  induction s as [|c s IH]; simpl; [lia|]. destruct (is_ws c); simpl; lia.
Qed.

Lemma span_digits_length (s ds rest : pystr) :
  span_digits s = (ds, rest) -> (length rest <= length s)%nat.
Proof.
  revert ds rest. induction s as [|c s IH]; simpl; intros ds rest.
  - intros [= <- <-]. simpl. lia.
  - destruct (is_digit c).
    + destruct (span_digits s) as [ds' rest'] eqn:E. intros [= <- <-].
      specialize (IH _ _ eq_refl). lia.
    + intros [= <- <-]. simpl. lia.
Qed.

Lemma scanned_cons_ok {A} (enough : Prop) (s s' : pystr) (a : A) res :
  (length s' <= length s)%nat ->
  scanned enough s' res -> scanned enough s (cons_ok a res).
Proof.
  unfold scanned, cons_ok. destruct res as [[l rest]|e]; simpl; [lia | auto].
Qed.

Lemma scanstring_scanned (n : nat) (s : pystr) :
  (length s <= n)%nat -> scanned True s (scanstring s).
Proof.
  revert s. induction n as [|n IH]; intros s Hn.
  - destruct s; [|simpl in Hn; lia]. simpl. intros _. discriminate.
  - destruct s as [|c r]; [simpl; intros _; discriminate|].
    cbn [scanstring].
    repeat match goal with
           | |- scanned _ _ (cons_ok _ (scanstring ?r')) =>
               apply (scanned_cons_ok _ _ r'); [simpl in *; lia | apply IH; simpl in *; lia]
           | |- scanned _ _ (Raise JSONDecodeError) => intros _; discriminate
           | |- scanned _ _ (Ok _) => simpl; lia
           | |- context [if ?b then _ else _] => destruct b
           | |- context [match ?x with _ => _ end] => destruct x
           end.
Qed.

Lemma number_sign_length (s : pystr) :
  (length (number_sign s).2 <= length s)%nat.
Proof.
  destruct s as [|c r]; simpl; [lia|]. destruct (c =? 45); simpl; lia.
Qed.

Lemma number_integer_length (s ipart rest : pystr) :
  number_integer s = Some (ipart, rest) -> (length rest < length s)%nat.
Proof.
  destruct s as [|c r]; simpl; [discriminate|].
  destruct ((49 <=? c) && (c <=? 57)).
  - destruct (span_digits r) as [ds rest'] eqn:E. apply span_digits_length in E.
    intros [= <- <-]. lia.
  - destruct (c =? 48); [|discriminate]. intros [= <- <-]. lia.
Qed.

Lemma number_fraction_length (s : pystr) :
  (length (number_fraction s).2 <= length s)%nat.
Proof.
  destruct s as [|p [|d r]]; simpl; try lia.
  destruct ((p =? 46) && is_digit d); simpl; [|lia].
  destruct (span_digits r) as [ds rest] eqn:E. apply span_digits_length in E.
  simpl. lia.
Qed.

Lemma number_exponent_length (s : pystr) :
  (length (number_exponent s).2 <= length s)%nat.
Proof.
  destruct s as [|e r]; simpl; [lia|].
  destruct ((e =? 101) || (e =? 69)); simpl; [|lia].
  destruct r as [|sg r']; simpl; [lia|].
  destruct ((sg =? 45) || (sg =? 43)).
  - destruct (span_digits r') as [[|d ds] rest] eqn:E; simpl; [lia|].
    apply span_digits_length in E. lia.
  - destruct (span_digits (sg :: r')) as [[|d ds] rest] eqn:E; simpl; [lia|].
    apply span_digits_length in E. simpl in E. lia.
Qed.

Lemma match_number_length (s rest : pystr) (v : pyval) :
  match_number s = Some (v, rest) -> (length rest < length s)%nat.
Proof.
  unfold match_number.
  pose proof (number_sign_length s) as Hsign.
  destruct (number_sign s) as [negative s1]. simpl in Hsign.
  destruct (number_integer s1) as [[ipart s2]|] eqn:Hint; [|discriminate].
  apply number_integer_length in Hint.
  pose proof (number_fraction_length s2) as Hfrac.
  destruct (number_fraction s2) as [frac s3]. simpl in Hfrac.
  pose proof (number_exponent_length s3) as Hexp.
  destruct (number_exponent s3) as [expo s4]. simpl in Hexp.
  destruct frac, expo; intros [= <- <-]; lia.
Qed.

Lemma drop_shorter {A} (n : nat) (c : A) (r : list A) :
  (0 < n)%nat -> (length (drop n (c :: r)) < length (c :: r))%nat.
Proof. intros Hn. rewrite length_drop. simpl. lia. Qed.

Ltac scan_leaf :=
  match goal with
  | |- scanned _ _ (Raise JSONDecodeError) => intros _; discriminate
  | |- scanned _ _ (Ok (_, drop _ (_ :: _))) => unfold scanned; apply drop_shorter; lia
  | |- scanned _ _ (Ok _) => simpl in *; lia
  | |- context [if ?b then _ else _] => destruct b
  end.

Lemma scan_scanned (depth : nat) :
  (forall s, scanned (2 * length s + 1 <= depth)%nat s (scan_once depth s)) /\
  (forall s, scanned (2 * length s + 2 <= depth)%nat s (array_items depth s)) /\
  (forall s, scanned (2 * length s + 2 <= depth)%nat s (object_items depth s)).
Proof.
  induction depth as [|depth [IHscan [IHarray IHobject]]].
  - repeat split; intros s; simpl; lia.
  - split; [|split]; intros s.
    + destruct s as [|c r]; [intros _; discriminate|].
      cbn [scan_once].
      destruct (c =? 34).
      { pose proof (scanstring_scanned _ r (le_n _)) as Hstr.
        destruct (scanstring r) as [[str rest]|e]; simpl in *; [lia|auto]. }
      destruct (c =? 123).
      { pose proof (skip_ws_length r) as Hws.
        destruct (skip_ws r) as [|c1 r1]; [intros _; discriminate|].
        destruct (c1 =? 125); [simpl in *; lia|].
        destruct (c1 =? 34); [|intros _; discriminate].
        specialize (IHobject r1).
        destruct (object_items depth r1) as [[pairs rest]|e]; simpl in *; [lia|].
        intros Hd. apply IHobject. lia. }
      destruct (c =? 91).
      { pose proof (skip_ws_length r) as Hws.
        destruct (skip_ws r) as [|c1 r1]; [intros _; discriminate|].
        destruct (c1 =? 93); [simpl in *; lia|].
        specialize (IHarray (c1 :: r1)).
        destruct (array_items depth (c1 :: r1)) as [[items rest]|e]; simpl in *; [lia|].
        intros Hd. apply IHarray. lia. }
      repeat scan_leaf;
        (destruct (match_number (c :: r)) as [[v rest]|] eqn:Hnum;
         [apply match_number_length in Hnum; simpl in *; lia | repeat scan_leaf]).
    + cbn [array_items].
      specialize (IHscan s).
      destruct (scan_once depth s) as [[value r]|e]; simpl in IHscan |- *;
        [|intros Hd; apply IHscan; lia].
      pose proof (skip_ws_length r) as Hws.
      destruct (skip_ws r) as [|c r1]; [intros _; discriminate|].
      destruct (c =? 93); [simpl in *; lia|].
      destruct (c =? 44); [|intros _; discriminate].
      pose proof (skip_ws_length r1) as Hws1.
      specialize (IHarray (skip_ws r1)).
      destruct (array_items depth (skip_ws r1)) as [[items rest]|e];
        simpl in *; [lia|].
      intros Hd. apply IHarray. lia.
    + cbn [object_items].
      pose proof (scanstring_scanned _ s (le_n _)) as Hstr.
      destruct (scanstring s) as [[key r]|e]; simpl in Hstr |- *; [|auto].
      pose proof (skip_ws_length r) as Hws.
      destruct (skip_ws r) as [|c r1]; [intros _; discriminate|].
      destruct (c =? 58); [|intros _; discriminate].
      pose proof (skip_ws_length r1) as Hws1.
      specialize (IHscan (skip_ws r1)).
      destruct (scan_once depth (skip_ws r1)) as [[value r2]|e];
        simpl in IHscan |- *; [|intros Hd; apply IHscan; simpl in *; lia].
      pose proof (skip_ws_length r2) as Hws2.
      destruct (skip_ws r2) as [|c2 r3]; [intros _; discriminate|].
      destruct (c2 =? 125); [simpl in *; lia|].
      destruct (c2 =? 44); [|intros _; discriminate].
      pose proof (skip_ws_length r3) as Hws3.
      destruct (skip_ws r3) as [|c3 r4]; [intros _; discriminate|].
      destruct (c3 =? 34); [|intros _; discriminate].
      specialize (IHobject r4).
      destruct (object_items depth r4) as [[pairs rest]|e]; simpl in *; [lia|].
      intros Hd. apply IHobject. lia.
Qed.

(** The decoder never fails for want of depth. *)
Lemma decode_depth_suffices (s : pystr) : decode s <> Raise RecursionError.
Proof.
  unfold decode.
  destruct (scan_scanned (2 * length (skip_ws s) + 2)) as [Hscan _].
  specialize (Hscan (skip_ws s)).
  destruct (scan_once _ (skip_ws s)) as [[v rest]|e]; simpl in *.
  - destruct (skip_ws rest); discriminate.
  - intros [= ->]. apply Hscan; [lia | reflexivity].
Qed.

End JsonFacts.

(** ** The decoder reads back what the encoder writes *)

Module RoundTripFacts.
Import Py Json TextFacts JsonFacts.

Lemma hex_val_digit (d : N) : d < 16 -> hex_val (hex_digit d) = Some d.
Proof.
  intros Hd. unfold hex_val, hex_digit, is_digit.
  destruct (d <? 10) eqn:E.
  - apply N.ltb_lt in E.
    replace ((48 <=? 48 + d) && (48 + d <=? 57)) with true.
    + f_equal. lia.
    + symmetry. apply andb_true_iff. split; apply N.leb_le; lia.
  - apply N.ltb_ge in E.
    replace ((48 <=? 87 + d) && (87 + d <=? 57)) with false.
    + replace ((97 <=? 87 + d) && (87 + d <=? 102)) with true.
      * f_equal. lia.
      * symmetry. apply andb_true_iff. split; apply N.leb_le; lia.
    + symmetry. apply andb_false_iff. right. apply N.leb_gt. lia.
Qed.

Lemma nibble (n k : N) : N.land (N.shiftr n k) 0xF = (n / 2 ^ k) mod 16.
Proof.
  change 0xF with (N.ones 4). rewrite N.land_ones, N.shiftr_div_pow2. reflexivity.
Qed.

Lemma decode_hex4 (n : N) :
  n < 0x10000 ->
  match hex4 n with
  | [h1; h2; h3; h4] => decode_uXXXX h1 h2 h3 h4 = Some n
  | _ => False
  end.
Proof.
  intros Hn. unfold hex4, decode_uXXXX.
  replace (N.land n 0xF) with (N.land (N.shiftr n 0) 0xF) by now rewrite N.shiftr_0_r.
  rewrite !nibble.
  rewrite !hex_val_digit by (apply N.mod_lt; lia).
  f_equal. change (2 ^ 12) with 4096. change (2 ^ 8) with 256.
  change (2 ^ 4) with 16. change (2 ^ 0) with 1.
  rewrite N.div_1_r.
  zify. Z.to_euclidean_division_equations. lia.
Qed.

Ltac div_lia := zify; Z.to_euclidean_division_equations; lia.

Lemma land_shiftl_low (a x k : N) : x < 2 ^ k -> N.land (N.shiftl a k) x = 0.
Proof.
  intros Hx. apply N.bits_inj. intros i.
  rewrite N.land_spec, N.bits_0.
  destruct (N.lt_ge_cases i k) as [Hi|Hi].
  - rewrite N.shiftl_spec_low by assumption. reflexivity.
  - rewrite <- (N.mod_small x (2 ^ k)) by assumption.
    rewrite N.mod_pow2_bits_high by assumption. apply andb_false_r.
Qed.

Lemma lor_shiftl_low (a x k : N) :
  x < 2 ^ k -> N.lor (N.shiftl a k) x = a * 2 ^ k + x.
Proof.
  intros Hx. rewrite <- N.lxor_lor by (now apply land_shiftl_low).
  rewrite <- N.add_nocarry_lxor by (now apply land_shiftl_low).
  now rewrite N.shiftl_mul_pow2.
Qed.

(** The surrogate pair [escape_char] writes for a code point above the
    BMP, and its way back. *)
Lemma surrogate_pair (c : N) :
  0x10000 <= c -> c < 0x110000 ->
  let n := c - 0x10000 in
  let s1 := N.lor 0xD800 (N.land (N.shiftr n 10) 0x3FF) in
  let s2 := N.lor 0xDC00 (N.land n 0x3FF) in
  s1 < 0x10000 /\ s2 < 0x10000 /\
  is_high s1 = true /\ is_low s2 = true /\ join_surrogates s1 s2 = c.
Proof.
  intros Hlo Hhi n s1 s2.
  assert (Hc : c = n + 0x10000) by (unfold n; lia).
  assert (Hn : n < 1048576) by (unfold n; lia).
  assert (Hq : n / 1024 < 1024).
  { clearbody n. clear s1 s2. zify. Z.to_euclidean_division_equations. lia. }
  assert (Hr : n mod 1024 < 1024) by (apply N.mod_lt; lia).
  assert (H1 : s1 = 0xD800 + n / 1024).
  { unfold s1. change 0xD800 with (N.shiftl 54 10).
    change 0x3FF with (N.ones 10). rewrite N.land_ones, N.shiftr_div_pow2.
    change (2 ^ 10) with 1024. rewrite (N.mod_small _ _ Hq).
    rewrite lor_shiftl_low; [reflexivity | exact Hq]. }
  assert (H2 : s2 = 0xDC00 + n mod 1024).
  { unfold s2. change 0xDC00 with (N.shiftl 55 10).
    change 0x3FF with (N.ones 10). rewrite N.land_ones.
    change (2 ^ 10) with 1024.
    rewrite lor_shiftl_low; [reflexivity | exact Hr]. }
  clearbody n s1 s2. subst s1 s2.
  split; [div_lia|]. split; [div_lia|].
  split; [unfold is_high; apply andb_true_iff; split; apply N.leb_le; div_lia|].
  split; [unfold is_low; apply andb_true_iff; split; apply N.leb_le; div_lia|].
  unfold join_surrogates.
  replace (55296 + n / 1024 - 55296) with (n / 1024) by div_lia.
  replace (56320 + n mod 1024 - 56320) with (n mod 1024) by div_lia.
  rewrite lor_shiftl_low by exact Hr.
  change (2 ^ 10) with 1024. subst c. div_lia.
Qed.

Lemma scanstring_u (h1 h2 h3 h4 uni : N) (r2 : pystr) :
  decode_uXXXX h1 h2 h3 h4 = Some uni ->
  is_high uni = false ->
  scanstring (92 :: 117 :: h1 :: h2 :: h3 :: h4 :: r2) = cons_ok uni (scanstring r2).
Proof.
  intros Hdec Hhigh.
  change (scanstring (92 :: 117 :: h1 :: h2 :: h3 :: h4 :: r2))
    with (match decode_uXXXX h1 h2 h3 h4 with
          | None => Raise JSONDecodeError
          | Some uni =>
              match r2 with
              | e1 :: e2 :: k1 :: k2 :: k3 :: k4 :: r3 =>
                  if is_high uni && (e1 =? 92) && (e2 =? 117) then
                    match decode_uXXXX k1 k2 k3 k4 with
                    | None => Raise JSONDecodeError
                    | Some uni2 =>
                        if is_low uni2
                        then cons_ok (join_surrogates uni uni2) (scanstring r3)
                        else cons_ok uni (scanstring r2)
                    end
                  else cons_ok uni (scanstring r2)
              | _ => cons_ok uni (scanstring r2)
              end
          end).
  rewrite Hdec, Hhigh.
  destruct r2 as [|e1 [|e2 [|k1 [|k2 [|k3 [|k4 r3]]]]]]; reflexivity.
Qed.

Lemma scanstring_pair (a1 a2 a3 a4 b1 b2 b3 b4 uni uni2 : N) (r3 : pystr) :
  decode_uXXXX a1 a2 a3 a4 = Some uni ->
  decode_uXXXX b1 b2 b3 b4 = Some uni2 ->
  is_high uni = true -> is_low uni2 = true ->
  scanstring (92 :: 117 :: a1 :: a2 :: a3 :: a4 :: 92 :: 117 :: b1 :: b2 :: b3 :: b4 :: r3)
  = cons_ok (join_surrogates uni uni2) (scanstring r3).
Proof.
  intros Hdec Hdec2 Hhigh Hlow.
  change (scanstring (92 :: 117 :: a1 :: a2 :: a3 :: a4 :: 92 :: 117 :: b1 :: b2 :: b3 :: b4 :: r3))
    with (match decode_uXXXX a1 a2 a3 a4 with
          | None => Raise JSONDecodeError
          | Some uni =>
              if is_high uni && (92 =? 92) && (117 =? 117) then
                match decode_uXXXX b1 b2 b3 b4 with
                | None => Raise JSONDecodeError
                | Some uni2 =>
                    if is_low uni2
                    then cons_ok (join_surrogates uni uni2) (scanstring r3)
                    else cons_ok uni (scanstring (92 :: 117 :: b1 :: b2 :: b3 :: b4 :: r3))
                end
              else cons_ok uni (scanstring (92 :: 117 :: b1 :: b2 :: b3 :: b4 :: r3))
          end).
  rewrite Hdec, Hhigh, Hdec2, Hlow. reflexivity.
Qed.

Lemma scanstring_plain (c : N) (tail : pystr) :
  (c =? 34) = false -> (c =? 92) = false -> (c <? 32) = false ->
  scanstring (c :: tail) = cons_ok c (scanstring tail).
Proof. intros H34 H92 H32. cbn [scanstring]. rewrite H34, H92, H32. reflexivity. Qed.

(** What [escape_char] writes for a scalar value, [scanstring] reads as
    that value. *)
Lemma scanstring_escape_char (c : N) (tail : pystr) :
  is_scalar c = true ->
  scanstring (escape_char c ++ tail) = cons_ok c (scanstring tail).
Proof.
  unfold is_scalar, is_surrogate. intros Hscalar.
  apply andb_true_iff in Hscalar as [Hmax Hsurr].
  apply N.ltb_lt in Hmax. apply negb_true_iff in Hsurr.
  unfold escape_char.
  destruct (c =? 92) eqn:H92; [apply N.eqb_eq in H92; subst c; reflexivity|].
  destruct (c =? 34) eqn:H34; [apply N.eqb_eq in H34; subst c; reflexivity|].
  destruct ((32 <=? c) && (c <=? 126)) eqn:Hprint.
  { apply andb_true_iff in Hprint as [Hge _]. apply N.leb_le in Hge.
    apply scanstring_plain; try assumption. apply N.ltb_ge. assumption. }
  destruct (c =? 8) eqn:H8; [apply N.eqb_eq in H8; subst c; reflexivity|].
  destruct (c =? 12) eqn:H12; [apply N.eqb_eq in H12; subst c; reflexivity|].
  destruct (c =? 10) eqn:H10; [apply N.eqb_eq in H10; subst c; reflexivity|].
  destruct (c =? 13) eqn:H13; [apply N.eqb_eq in H13; subst c; reflexivity|].
  destruct (c =? 9) eqn:H9; [apply N.eqb_eq in H9; subst c; reflexivity|].
  destruct (c <? 0x10000) eqn:Hbmp.
  - apply N.ltb_lt in Hbmp.
    pose proof (decode_hex4 c Hbmp) as Hdec. unfold hex4 in *.
    change (lit "\u") with [92; 117]. cbn [app].
    apply scanstring_u; [exact Hdec|].
    unfold is_high. apply andb_false_iff.
    apply andb_false_iff in Hsurr as [Hs|Hs]; [left; exact Hs|].
    right. apply N.leb_gt. apply N.leb_gt in Hs. lia.
  - apply N.ltb_ge in Hbmp.
    destruct (surrogate_pair c Hbmp Hmax) as (Hs1 & Hs2 & Hhigh & Hlow & Hjoin).
    cbv zeta in *.
    set (s1 := N.lor 55296 _) in *. set (s2 := N.lor 56320 _) in *.
    clearbody s1 s2.
    pose proof (decode_hex4 _ Hs1) as Hdec1.
    pose proof (decode_hex4 _ Hs2) as Hdec2.
    unfold hex4 in *.
    change (lit "\u") with [92; 117]. cbn [app].
    subst c. apply scanstring_pair; assumption.
Qed.

Lemma scanstring_escaped (s : pystr) (rest : pystr) :
  forallb is_scalar s = true ->
  scanstring (concat (map escape_char s) ++ 34 :: rest) = Ok (s, rest).
Proof.
  induction s as [|c s IH]; intros Hs.
  - reflexivity.
  - cbn [forallb] in Hs. apply andb_true_iff in Hs as [Hc Hs].
    cbn [map concat]. rewrite <- app_assoc.
    rewrite (scanstring_escape_char c _ Hc). rewrite (IH Hs). reflexivity.
Qed.

(** *** Integers *)

(** What may follow a value in the text [json.dumps] writes: nothing, a
    comma, or a closing bracket or brace. *)
Definition delimited (rest : pystr) : bool :=
  match rest with
  | [] => true
  | c :: _ => (c =? 44) || (c =? 93) || (c =? 125)
  end.

Lemma delimited_cases (rest : pystr) :
  delimited rest = true ->
  rest = [] \/ exists c tail, rest = c :: tail /\ (c = 44 \/ c = 93 \/ c = 125).
Proof.
  destruct rest as [|c tail]; [now left|]. simpl. intros Hc. right.
  exists c, tail. split; [reflexivity|].
  apply orb_true_iff in Hc as [Hc|Hc]; [apply orb_true_iff in Hc as [Hc|Hc]|];
    apply N.eqb_eq in Hc; auto.
Qed.

Lemma span_digits_uint (d : Decimal.uint) (rest : pystr) :
  delimited rest = true ->
  span_digits (uint_chars d ++ rest) = (uint_chars d, rest).
Proof.
  intros Hrest.
  induction d; cbn [uint_chars app span_digits];
    try (change (is_digit _) with true; cbv iota; rewrite IHd; reflexivity).
  destruct (delimited_cases rest Hrest) as [->|(c & tail & -> & [->| [->| ->]])];
    reflexivity.
Qed.

Lemma pos_to_uint_leading (p : positive) :
  exists c d, uint_chars (Pos.to_uint p) = c :: uint_chars d /\ 49 <= c <= 57.
Proof.
  pose proof (DecimalPos.Unsigned.to_uint_nonnil p) as Hnil.
  pose proof (DecimalPos.Unsigned.to_uint_nonzero p) as Hzero.
  assert (Hnorm : Pos.to_uint p = unorm (Pos.to_uint p)).
  { rewrite <- DecimalPos.Unsigned.to_of, DecimalPos.Unsigned.of_to. reflexivity. }
  destruct (Pos.to_uint p) as [|d|d|d|d|d|d|d|d|d|d] eqn:E;
    try (eexists _, d; split; [reflexivity|lia]).
  - congruence.
  - exfalso. unfold unorm in Hnorm.
    destruct (nzhead (D0 d)) eqn:Hhead; try congruence;
      try (rewrite Hnorm in Hhead; apply nzhead_nonzero in Hhead; exact Hhead).
Qed.

Lemma number_tail (rest : pystr) :
  delimited rest = true ->
  number_fraction rest = ([], rest) /\ number_exponent rest = ([], rest).
Proof.
  intros Hrest.
  destruct (delimited_cases rest Hrest) as [->|(c & tail & -> & [->| [->| ->]])];
    (split; [destruct tail|]; reflexivity) || (split; reflexivity).
Qed.

Lemma match_number_digits (negative : bool) (c : N) (d : Decimal.uint) (rest : pystr) :
  49 <= c <= 57 ->
  delimited rest = true ->
  match_number ((if negative then [45] else []) ++ c :: uint_chars d ++ rest)
  = Some (PInt (int_of_digits negative (c :: uint_chars d)), rest).
Proof.
  intros Hc Hrest. unfold match_number.
  assert (Hsign : number_sign ((if negative then [45] else []) ++ c :: uint_chars d ++ rest)
                  = (negative, c :: uint_chars d ++ rest)).
  { destruct negative; [reflexivity|]. cbn [app number_sign].
    destruct (c =? 45) eqn:E; [apply N.eqb_eq in E; lia | reflexivity]. }
  rewrite Hsign. cbn [number_integer].
  replace ((49 <=? c) && (c <=? 57)) with true
    by (symmetry; apply andb_true_iff; split; apply N.leb_le; lia).
  rewrite (span_digits_uint d rest Hrest).
  destruct (number_tail rest Hrest) as [-> ->]. reflexivity.
Qed.

Lemma match_number_int (z : Z) (rest : pystr) :
  delimited rest = true ->
  match_number (int_repr z ++ rest) = Some (PInt z, rest).
Proof.
  intros Hrest.
  rewrite <- (DecimalZ.of_to z) at 2.
  unfold int_repr. destruct z as [|p|p]; cbn [Z.to_int].
  - unfold match_number. cbn.
    destruct (number_tail rest Hrest) as [-> ->]. reflexivity.
  - destruct (pos_to_uint_leading p) as (c & d & Hchars & Hc).
    pose proof (match_number_digits false c d rest Hc Hrest) as Hnum.
    rewrite Hchars. cbn [app] in Hnum |- *. rewrite Hnum.
    unfold int_of_digits. rewrite <- Hchars, digit_uint_chars. reflexivity.
  - destruct (pos_to_uint_leading p) as (c & d & Hchars & Hc).
    pose proof (match_number_digits true c d rest Hc Hrest) as Hnum.
    rewrite Hchars. cbn [app] in Hnum |- *. rewrite Hnum.
    unfold int_of_digits. rewrite <- Hchars, digit_uint_chars. reflexivity.
Qed.

(** *** Depth *)

Lemma scan_once_eq (depth : nat) (s : pystr) :
  scan_once (S depth) s =
    match s with
    | [] => Raise JSONDecodeError
    | c :: r =>
        if c =? 34 then
          bind (scanstring r) (fun p => Ok (PStr (fst p), snd p))
        else if c =? 123 then
          match skip_ws r with
          | c1 :: r1 =>
              if c1 =? 125 then Ok (PDict [], r1)
              else if c1 =? 34 then
                bind (object_items depth r1) (fun p =>
                  Ok (PDict (dict_of_pairs (fst p)), snd p))
              else Raise JSONDecodeError
          | [] => Raise JSONDecodeError
          end
        else if c =? 91 then
          match skip_ws r with
          | c1 :: r1 =>
              if c1 =? 93 then Ok (PList [], r1)
              else bind (array_items depth (c1 :: r1)) (fun p =>
                     Ok (PList (fst p), snd p))
          | [] => Raise JSONDecodeError
          end
        else if starts_with (lit "null") s then Ok (PNone, drop 4 s)
        else if starts_with (lit "true") s then Ok (PBool true, drop 4 s)
        else if starts_with (lit "false") s then Ok (PBool false, drop 5 s)
        else
          match match_number s with
          | Some p => Ok p
          | None =>
              if starts_with (lit "NaN") s then Ok (PFloat (lit "NaN"), drop 3 s)
              else if starts_with (lit "Infinity") s
              then Ok (PFloat (lit "Infinity"), drop 8 s)
              else if starts_with (lit "-Infinity") s
              then Ok (PFloat (lit "-Infinity"), drop 9 s)
              else Raise JSONDecodeError
          end
    end.
Proof. reflexivity. Qed.

Lemma array_items_eq (depth : nat) (s : pystr) :
  array_items (S depth) s =
    bind (scan_once depth s) (fun p =>
      let (value, r) := p in
      match skip_ws r with
      | c :: r1 =>
          if c =? 93 then Ok ([value], r1)
          else if c =? 44 then cons_ok value (array_items depth (skip_ws r1))
          else Raise JSONDecodeError
      | [] => Raise JSONDecodeError
      end).
Proof. reflexivity. Qed.

Lemma object_items_eq (depth : nat) (s : pystr) :
  object_items (S depth) s =
    bind (scanstring s) (fun p =>
      let (key, r) := p in
      match skip_ws r with
      | c :: r1 =>
          if c =? 58 then
            bind (scan_once depth (skip_ws r1)) (fun q =>
              let (value, r2) := q in
              match skip_ws r2 with
              | c2 :: r3 =>
                  if c2 =? 125 then Ok ([(key, value)], r3)
                  else if c2 =? 44 then
                    match skip_ws r3 with
                    | c3 :: r4 =>
                        if c3 =? 34
                        then cons_ok (key, value) (object_items depth r4)
                        else Raise JSONDecodeError
                    | [] => Raise JSONDecodeError
                    end
                  else Raise JSONDecodeError
              | [] => Raise JSONDecodeError
              end)
          else Raise JSONDecodeError
      | [] => Raise JSONDecodeError
      end).
Proof. reflexivity. Qed.

(** One more unit of depth changes nothing, unless depth was what was
    missing. *)
Lemma scan_deeper (depth : nat) :
  (forall s, scan_once depth s = Raise RecursionError \/
             scan_once (S depth) s = scan_once depth s) /\
  (forall s, array_items depth s = Raise RecursionError \/
             array_items (S depth) s = array_items depth s) /\
  (forall s, object_items depth s = Raise RecursionError \/
             object_items (S depth) s = object_items depth s).
Proof.
  induction depth as [|depth [IHscan [IHarray IHobject]]].
  - repeat split; intros s; left; reflexivity.
  - split; [|split]; intros s.
    + destruct s as [|c r]; [right; reflexivity|].
      rewrite !scan_once_eq.
      destruct (c =? 34); [right; reflexivity|].
      destruct (c =? 123).
      { destruct (skip_ws r) as [|c1 r1]; [right; reflexivity|].
        destruct (c1 =? 125); [right; reflexivity|].
        destruct (c1 =? 34); [|right; reflexivity].
        destruct (IHobject r1) as [-> | ->]; [left|right]; reflexivity. }
      destruct (c =? 91); [|right; reflexivity].
      destruct (skip_ws r) as [|c1 r1]; [right; reflexivity|].
      destruct (c1 =? 93); [right; reflexivity|].
      destruct (IHarray (c1 :: r1)) as [-> | ->]; [left|right]; reflexivity.
    + rewrite !array_items_eq.
      destruct (IHscan s) as [-> | ->]; [left; reflexivity|].
      destruct (scan_once depth s) as [[value r]|e]; [|right; reflexivity].
      cbn [bind].
      destruct (skip_ws r) as [|c r1]; [right; reflexivity|].
      destruct (c =? 93); [right; reflexivity|].
      destruct (c =? 44); [|right; reflexivity].
      destruct (IHarray (skip_ws r1)) as [-> | ->]; [left|right]; reflexivity.
    + rewrite !object_items_eq.
      destruct (scanstring s) as [[key r]|e]; [|right; reflexivity].
      cbn [bind].
      destruct (skip_ws r) as [|c r1]; [right; reflexivity|].
      destruct (c =? 58); [|right; reflexivity].
      destruct (IHscan (skip_ws r1)) as [-> | ->]; [left; reflexivity|].
      destruct (scan_once depth (skip_ws r1)) as [[value r2]|e]; [|right; reflexivity].
      cbn [bind].
      destruct (skip_ws r2) as [|c2 r3]; [right; reflexivity|].
      destruct (c2 =? 125); [right; reflexivity|].
      destruct (c2 =? 44); [|right; reflexivity].
      destruct (skip_ws r3) as [|c3 r4]; [right; reflexivity|].
      destruct (c3 =? 34); [|right; reflexivity].
      destruct (IHobject r4) as [-> | ->]; [left|right]; reflexivity.
Qed.

Lemma scan_once_deeper (d d' : nat) (s : pystr) (r : result (pyval * pystr)) :
  (d <= d')%nat -> scan_once d s = r -> r <> Raise RecursionError ->
  scan_once d' s = r.
Proof.
  intros Hle Hscan Hr. induction Hle as [|d' Hle IH]; [assumption|].
  destruct (scan_deeper d') as [Hdeeper _].
  destruct (Hdeeper s) as [Hrec | ->]; [congruence | assumption].
Qed.

(** *** Values *)

Lemma dict_set_fresh (pairs : list (pystr * pyval)) (k : pystr) (v : pyval) :
  k ∉ map fst pairs -> dict_set pairs k v = pairs ++ [(k, v)].
Proof.
  induction pairs as [|[k' v'] pairs IH]; intros Hk; [reflexivity|].
  cbn [dict_set]. unfold pystr_eqb.
  rewrite bool_decide_eq_false_2.
  - cbn [app]. f_equal. apply IH. intros Hin. apply Hk. cbn. now right.
  - intros ->. apply Hk. cbn. now left.
Qed.

Lemma dict_of_pairs_unique (pairs : list (pystr * pyval)) :
  NoDup (map fst pairs) -> dict_of_pairs pairs = pairs.
Proof.
  unfold dict_of_pairs.
  assert (Hgen : forall acc, NoDup (map fst (acc ++ pairs)) ->
            fold_left (fun d kv => dict_set d (fst kv) (snd kv)) pairs acc = acc ++ pairs).
  { induction pairs as [|[k v] pairs IH]; intros acc Hnodup.
    - now rewrite app_nil_r.
    - cbn [fold_left fst snd]. rewrite dict_set_fresh.
      + rewrite IH; rewrite <- app_assoc; [reflexivity | exact Hnodup].
      + rewrite map_app in Hnodup. apply NoDup_app in Hnodup as (_ & Hdisj & _).
        intros Hin. apply (Hdisj k Hin). cbn. now left. }
  intros Hnodup. apply (Hgen [] Hnodup).
Qed.

Section RoundTrip.
Context `{FloatRepr}.

(** The text of a value starts with a character that is no whitespace and
    no closing bracket. *)
Lemma json_dumps_first (v : pyval) :
  representable v = true ->
  exists c tail, json_dumps v = c :: tail /\ is_ws c = false /\ (c =? 93) = false.
Proof.
  destruct v as [| [|] | z | l | s | items | pairs]; intros Hv;
    try discriminate; try (eexists _, _; split; [reflexivity | split; reflexivity]).
  cbn [json_dumps]. unfold int_repr.
  destruct z as [|p|p]; cbn [Z.to_int].
  - eexists _, _; split; [reflexivity | split; reflexivity].
  - destruct (pos_to_uint_leading p) as (c & d & -> & Hc).
    exists c, (uint_chars d). split; [reflexivity|].
    unfold is_ws. split.
    + repeat (apply orb_false_iff; split); apply N.eqb_neq; lia.
    + apply N.eqb_neq. lia.
  - eexists _, _; split; [reflexivity | split; reflexivity].
Qed.

Lemma skip_ws_first (c : N) (tail : pystr) :
  is_ws c = false -> skip_ws (c :: tail) = c :: tail.
Proof. intros Hc. cbn [skip_ws]. now rewrite Hc. Qed.

Lemma skip_ws_delimited (rest : pystr) :
  delimited rest = true -> skip_ws rest = rest.
Proof.
  intros Hrest.
  destruct (delimited_cases rest Hrest) as [->|(c & tail & -> & [->| [->| ->]])];
    reflexivity.
Qed.

Lemma starts_with_head_ne (p c : N) (prefix tail : pystr) :
  p <> c -> starts_with (p :: prefix) (c :: tail) = false.
Proof. intros Hne. cbn [starts_with]. now rewrite bool_decide_eq_false_2. Qed.

Lemma scan_once_number (depth : nat) (c : N) (tail rest : pystr) (v : pyval) :
  c = 45 \/ 48 <= c <= 57 ->
  match_number (c :: tail) = Some (v, rest) ->
  scan_once (S depth) (c :: tail) = Ok (v, rest).
Proof.
  intros Hc Hnum. rewrite scan_once_eq.
  replace (c =? 34) with false by (symmetry; apply N.eqb_neq; lia).
  replace (c =? 123) with false by (symmetry; apply N.eqb_neq; lia).
  replace (c =? 91) with false by (symmetry; apply N.eqb_neq; lia).
  change (lit "null") with [110; 117; 108; 108].
  change (lit "true") with [116; 114; 117; 101].
  change (lit "false") with [102; 97; 108; 115; 101].
  rewrite !starts_with_head_ne by lia.
  rewrite Hnum. reflexivity.
Qed.

Lemma scan_once_int (depth : nat) (z : Z) (rest : pystr) :
  delimited rest = true ->
  scan_once (S depth) (int_repr z ++ rest) = Ok (PInt z, rest).
Proof.
  intros Hrest.
  pose proof (match_number_int z rest Hrest) as Hnum.
  destruct (json_dumps_first (PInt z) eq_refl) as (c & tail & Hfirst & _).
  cbn [json_dumps] in Hfirst.
  assert (Hc : c = 45 \/ 48 <= c <= 57).
  { revert Hfirst. unfold int_repr. destruct z as [|p|p]; cbn [Z.to_int].
    - intros [= <- _]. right. lia.
    - destruct (pos_to_uint_leading p) as (c' & d & -> & Hc').
      intros [= <- _]. right. lia.
    - intros [= <- _]. now left. }
  rewrite Hfirst in Hnum |- *. cbn [app] in Hnum |- *.
  now apply scan_once_number.
Qed.

Lemma scan_once_str (depth : nat) (s rest : pystr) :
  forallb is_scalar s = true ->
  scan_once (S depth) (encode_basestring_ascii s ++ rest) = Ok (PStr s, rest).
Proof.
  intros Hs. unfold encode_basestring_ascii.
  rewrite <- !app_assoc. cbn [app]. rewrite scan_once_eq. cbn [N.eqb Pos.eqb].
  rewrite (scanstring_escaped s rest Hs). reflexivity.
Qed.


(** A value reads back: from some depth on, [scan_once] on the text of
    the value, whatever delimited text follows, returns the value and what
    follows. *)
Definition reads_back (v : pyval) : Prop :=
  exists d0 : nat, forall (d : nat) (rest : pystr),
    (d0 <= d)%nat -> delimited rest = true ->
    scan_once d (json_dumps v ++ rest) = Ok (v, rest).

Lemma join_first (v : pyval) (vs : list pyval) :
  exists more, join [44; 32] (map json_dumps (v :: vs)) = json_dumps v ++ more.
Proof.
  destruct vs as [|v2 vs]; cbn [map join].
  - exists []. now rewrite app_nil_r.
  - eexists. reflexivity.
Qed.

Lemma array_items_read_back (items : list pyval) :
  items <> [] ->
  Forall (fun v => representable v = true /\ reads_back v) items ->
  exists d0 : nat, forall (d : nat) (rest : pystr),
    (d0 <= d)%nat -> delimited rest = true ->
    array_items d (join [44; 32] (map json_dumps items) ++ 93 :: rest)
    = Ok (items, rest).
Proof.
  induction items as [|v vs IH]; [congruence|]. intros _ Hitems.
  apply Forall_cons in Hitems as [[Hrep [d0 Hv]] Hvs].
  destruct vs as [|v2 vs].
  - exists (S d0). intros d rest Hd Hrest.
    destruct d as [|d]; [lia|]. rewrite array_items_eq. cbn [map join].
    rewrite (Hv d (93 :: rest)) by (lia || reflexivity).
    reflexivity.
  - destruct (IH ltac:(discriminate) Hvs) as [d1 Hrec].
    exists (S (Nat.max d0 d1)). intros d rest Hd Hrest.
    destruct d as [|d]; [lia|]. rewrite array_items_eq.
    change (join [44; 32] (map json_dumps (v :: v2 :: vs)))
      with (json_dumps v ++ [44; 32] ++ join [44; 32] (map json_dumps (v2 :: vs))).
    rewrite <- !app_assoc. cbn [app].
    rewrite (Hv d) by (lia || reflexivity).
    cbn [bind skip_ws is_ws N.eqb Pos.eqb orb].
    specialize (Hrec d rest ltac:(lia) Hrest).
    destruct (join_first v2 vs) as [more Hjoin].
    apply Forall_cons in Hvs as [[Hrep2 _] _].
    destruct (json_dumps_first v2 Hrep2) as (c & tail & Hfirst & Hws & _).
    rewrite Hjoin, Hfirst in Hrec |- *. cbn [app] in Hrec |- *.
    rewrite (skip_ws_first c _ Hws), Hrec. reflexivity.
Qed.

Definition pair_text (kv : pystr * pyval) : pystr :=
  encode_basestring_ascii (fst kv) ++ [58; 32] ++ json_dumps (snd kv).

Lemma pair_text_first (kv : pystr * pyval) :
  exists more, pair_text kv = 34 :: more.
Proof. eexists. reflexivity. Qed.

Lemma object_items_read_back (pairs : list (pystr * pyval)) :
  pairs <> [] ->
  Forall (fun kv => (forallb is_scalar (fst kv) = true /\
                     representable (snd kv) = true) /\ reads_back (snd kv)) pairs ->
  exists (d0 : nat) (text : pystr),
    join [44; 32] (map pair_text pairs) = 34 :: text /\
    forall (d : nat) (rest : pystr),
      (d0 <= d)%nat -> delimited rest = true ->
      object_items d (text ++ 125 :: rest) = Ok (pairs, rest).
Proof.
  induction pairs as [|[k v] ps IH]; [congruence|]. intros _ Hpairs.
  apply Forall_cons in Hpairs as [[[Hkey Hrep] [d0 Hv]] Hps].
  cbn [fst snd] in *.
  destruct (json_dumps_first v Hrep) as (c & tail & Hfirst & Hws & _).
  destruct ps as [|kv2 ps].
  - exists (S d0). eexists. split; [reflexivity|].
    intros d rest Hd Hrest. destruct d as [|d]; [lia|].
    rewrite object_items_eq. cbn [fst snd].
    rewrite <- !app_assoc. cbn [app].
    rewrite (scanstring_escaped k _ Hkey).
    cbn [bind skip_ws is_ws N.eqb Pos.eqb orb].
    specialize (Hv d (125 :: rest) ltac:(lia) eq_refl).
    rewrite Hfirst in Hv |- *. cbn [app] in Hv |- *.
    rewrite (skip_ws_first c _ Hws), Hv. reflexivity.
  - destruct (IH ltac:(discriminate) Hps) as (d1 & text & Htext & Hrec).
    exists (S (Nat.max d0 d1)). eexists. split.
    { change (join [44; 32] (map pair_text ((k, v) :: kv2 :: ps)))
        with (pair_text (k, v) ++ [44; 32] ++ join [44; 32] (map pair_text (kv2 :: ps))).
      rewrite Htext. reflexivity. }
    intros d rest Hd Hrest. destruct d as [|d]; [lia|].
    rewrite object_items_eq. cbn [fst snd].
    rewrite <- !app_assoc. cbn [app].
    rewrite (scanstring_escaped k _ Hkey).
    cbn [bind skip_ws is_ws N.eqb Pos.eqb orb].
    specialize (Hv d (44 :: 32 :: 34 :: text ++ 125 :: rest) ltac:(lia) eq_refl).
    rewrite Hfirst in Hv |- *. rewrite <- ?app_assoc. cbn [app] in Hv |- *.
    rewrite (skip_ws_first c _ Hws), Hv.
    cbn [bind skip_ws is_ws N.eqb Pos.eqb orb].
    rewrite (Hrec d rest) by (lia || assumption). reflexivity.
Qed.

Lemma forallb_Forall {A} (f : A -> bool) (l : list A) :
  forallb f l = true -> Forall (fun x => f x = true) l.
Proof.
  induction l as [|x l IH]; cbn [forallb]; intros Hl; constructor;
    apply andb_true_iff in Hl as [Hx Hl]; auto.
Qed.

(** Every representable value reads back. *)
Lemma representable_reads_back (v : pyval) :
  representable v = true -> reads_back v.
Proof.
  induction v as [| b | z | l | s | items IH | pairs IH] using pyval_nested_ind;
    intros Hv.
  - exists 1%nat. intros [|d] rest Hd _; [lia | reflexivity].
  - exists 1%nat. intros [|d] rest Hd _; [lia | destruct b; reflexivity].
  - exists 1%nat. intros [|d] rest Hd Hrest; [lia | now apply scan_once_int].
  - discriminate.
  - exists 1%nat. intros [|d] rest Hd Hrest; [lia | now apply scan_once_str].
  - cbn [representable] in Hv. apply forallb_Forall in Hv.
    destruct items as [|v vs].
    { exists 1%nat. intros [|d] rest Hd _; [lia | reflexivity]. }
    assert (Hitems : Forall (fun v => representable v = true /\ reads_back v) (v :: vs)).
    { clear -IH Hv. induction IH; inversion Hv; subst; constructor; auto. }
    destruct (array_items_read_back (v :: vs) ltac:(discriminate) Hitems) as [d0 Hrec].
    exists (S d0). intros [|d] rest Hd Hrest; [lia|].
    cbn [json_dumps]. change (lit ", ") with [44; 32].
    change (lit "[") with [91]. change (lit "]") with [93].
    rewrite <- !app_assoc. cbn [app]. rewrite scan_once_eq. cbn [N.eqb Pos.eqb].
    specialize (Hrec d rest ltac:(lia) Hrest).
    destruct (join_first v vs) as [more Hjoin].
    apply Forall_cons in Hv as [Hrep _].
    destruct (json_dumps_first v Hrep) as (c & tail & Hfirst & Hws & Hclose).
    rewrite Hjoin, Hfirst in Hrec |- *. rewrite <- !app_assoc in Hrec |- *.
    cbn [app] in Hrec |- *.
    rewrite (skip_ws_first c _ Hws), Hclose, Hrec. reflexivity.
  - cbn [representable] in Hv. apply andb_true_iff in Hv as [Hnodup Hv].
    apply bool_decide_eq_true_1 in Hnodup. apply forallb_Forall in Hv.
    destruct pairs as [|kv ps].
    { exists 1%nat. intros [|d] rest Hd _; [lia | reflexivity]. }
    assert (Hpairs : Forall (fun kv => (forallb is_scalar (fst kv) = true /\
                       representable (snd kv) = true) /\ reads_back (snd kv)) (kv :: ps)).
    { clear -IH Hv. induction IH; inversion Hv; subst; constructor; auto.
      match goal with Hx : _ && _ = true |- _ => apply andb_true_iff in Hx as [? ?] end.
      auto. }
    destruct (object_items_read_back (kv :: ps) ltac:(discriminate) Hpairs)
      as (d0 & text & Htext & Hrec).
    exists (S d0). intros [|d] rest Hd Hrest; [lia|].
    cbn [json_dumps]. change (lit ", ") with [44; 32].
    change (lit "{") with [123]. change (lit "}") with [125].
    change (map (fun kv0 => encode_basestring_ascii kv0.1 ++ lit ": " ++ json_dumps kv0.2) (kv :: ps))
      with (map pair_text (kv :: ps)).
    rewrite Htext. rewrite <- !app_assoc. cbn [app].
    rewrite scan_once_eq. cbn [N.eqb Pos.eqb skip_ws is_ws orb].
    rewrite (Hrec d rest) by (lia || assumption). cbn [bind fst snd].
    rewrite (dict_of_pairs_unique _ Hnodup). reflexivity.
Qed.

(** [json.loads(json.dumps(v))] is [v], on the text. *)
Lemma decode_json_dumps (v : pyval) :
  representable v = true -> decode (json_dumps v) = Ok v.
Proof.
  intros Hv. unfold decode.
  destruct (json_dumps_first v Hv) as (c & tail & Hfirst & Hws & _).
  rewrite Hfirst, (skip_ws_first c tail Hws), <- Hfirst.
  destruct (representable_reads_back v Hv) as [d0 Hback].
  set (depth := (2 * length (json_dumps v) + 2)%nat).
  assert (Hscan : scan_once depth (json_dumps v) = Ok (v, [])).
  { destruct (scan_scanned depth) as [Hdepth _]. specialize (Hdepth (json_dumps v)).
    assert (Hno : scan_once depth (json_dumps v) <> Raise RecursionError).
    { destruct (scan_once depth (json_dumps v)) as [p|e]; [discriminate|].
      intros [= ->]. apply Hdepth; [unfold depth; lia | reflexivity]. }
    pose proof (scan_once_deeper depth (Nat.max depth d0) _ _
                  (Nat.le_max_l _ _) eq_refl Hno) as Hdeep.
    rewrite <- Hdeep. rewrite <- (app_nil_r (json_dumps v)) at 1.
    apply Hback; [apply Nat.le_max_r | reflexivity]. }
  rewrite Hscan. reflexivity.
Qed.

End RoundTrip.

End RoundTripFacts.

(** ** tools/dummy-jsonrpc.py *)

Module DummyJsonrpcFacts.
Import Py Json DummyJsonrpc TextFacts.

Section Facts.
Context `{FloatRepr} `{PathResolve}.

(** [messages] has an entry for each of the two message types. *)
Lemma message_defined (a : args) : exists m, message a = Ok m.
Proof. destruct a as [[|] file]; eexists; reflexivity. Qed.

Lemma nat_repr_ascii (n : nat) : Forall ascii (nat_repr n).
Proof. apply printable_ascii, uint_chars_printable. Qed.

(** C1.  For every file argument and either message type, the script
    writes the header [Content-Length: N], a blank line, the JSON text of
    the message and the newline of [print], where [N], the [len] of the
    JSON text, is the number of bytes of that text on the wire: exactly [N]
    bytes of JSON follow the blank line, and the decimal digits of the
    header denote [N]. *)
Theorem content_length_counts_body_bytes (a : args) :
  exists (json : pystr) (body : pybytes),
    message_json a = Ok json /\
    str_encode json = Ok body /\
    length body = length json /\
    int_of_digits false (nat_repr (length body)) = Z.of_nat (length body) /\
    stdout a =
      Ok (blit "Content-Length: " ++ map byte_of (nat_repr (length body))
          ++ [x0d; x0a; x0d; x0a] ++ body ++ [x0a]).
Proof.
  destruct (message_defined a) as [m Hm].
  exists (json_dumps m), (map byte_of (json_dumps m)).
  assert (Hjson : message_json a = Ok (json_dumps m)).
  { unfold message_json. rewrite Hm. reflexivity. }
  split; [exact Hjson|].
  split; [apply json_dumps_encodes|].
  split; [apply length_map|].
  split; [apply nat_repr_value|].
  unfold stdout, printed. rewrite Hjson. cbn [bind].
  rewrite length_map.
  rewrite str_encode_ascii.
  - rewrite !map_app. reflexivity.
  - apply Forall_app. split; [apply printable_ascii, lit_printable; reflexivity|].
    apply Forall_app. split; [apply nat_repr_ascii|].
    apply Forall_app. split; [repeat constructor; unfold ascii; lia|].
    apply Forall_app. split; [apply json_dumps_ascii|].
    repeat constructor; unfold ascii; lia.
Qed.

(** C8.  For every file argument and either message type, the [uri] of
    the message's [params] is the text file:// followed by the resolved,
    absolute path of the file. *)
Theorem uri_is_file_scheme_then_resolved_path (a : args) :
  exists m params,
    message a = Ok m /\
    getitem m (lit "params") = Ok params /\
    getitem params (lit "uri")
    = Ok (PStr (lit "file://" ++ path_resolve (args_file a))).
Proof.
  destruct a as [[|] file]; do 2 eexists; repeat split; reflexivity.
Qed.

End Facts.

End DummyJsonrpcFacts.

(** ** Frames on the wire *)

Module WireFacts.
Import Py Json FakeDaemon TextFacts JsonFacts RoundTripFacts.

(** *** From the bytes on the wire back to the text *)

Lemma to_N_byte_of_printable (s : pystr) :
  Forall printable s -> map Byte.to_N (map byte_of s) = s.
Proof.
  induction 1 as [|c s Hc Hs IH]; [reflexivity|].
  cbn [map]. rewrite IH, byte_of_to_N; [reflexivity|].
  unfold printable in Hc. lia.
Qed.

Lemma utf8_decode_printable (s : pystr) :
  Forall printable s -> utf8_decode s = Ok s.
Proof.
  induction 1 as [|c s Hc Hs IH]; [reflexivity|].
  cbn [utf8_decode].
  replace (c <? 128) with true by (symmetry; apply N.ltb_lt; unfold printable in Hc; lia).
  rewrite IH. reflexivity.
Qed.

Lemma detect_encoding_printable (s : pystr) :
  Forall printable s -> detect_encoding s = UTF8.
Proof.
  intros Hs. unfold detect_encoding.
  destruct s as [|b0 s]; [reflexivity|].
  apply Forall_cons in Hs as [H0 Hs]. unfold printable in H0.
  rewrite !starts_with_head_ne by lia. cbn [orb].
  replace (b0 =? 0) with false by (symmetry; apply N.eqb_neq; lia).
  destruct s as [|b1 s]; [reflexivity|].
  apply Forall_cons in Hs as [H1 Hs]. unfold printable in H1.
  replace (b1 =? 0) with false by (symmetry; apply N.eqb_neq; lia).
  destruct s as [|b2 [|b3 s]]; reflexivity.
Qed.

Section Wire.
Context `{FloatRepr}.

(** [json.loads(json.dumps(v).encode("utf-8"))] is [v]. *)
Lemma json_loads_json_dumps (v : pyval) :
  representable v = true ->
  json_loads (map byte_of (json_dumps v)) = Ok v.
Proof.
  intros Hv. unfold json_loads.
  pose proof (json_dumps_printable v) as Hprint.
  rewrite (to_N_byte_of_printable _ Hprint).
  rewrite (detect_encoding_printable _ Hprint). cbn [bytes_decode].
  rewrite (utf8_decode_printable _ Hprint). cbn [bind].
  now apply decode_json_dumps.
Qed.


Lemma json_dumps_last (v : pyval) :
  representable v = true ->
  exists init c, json_dumps v = init ++ [c] /\ printable c /\ c <> 32.
Proof.
  destruct v as [| [|] | z | l | s | items | pairs]; intros Hv; try discriminate.
  - exists [110; 117; 108], 108. unfold printable. repeat split; (reflexivity || lia).
  - exists [116; 114; 117], 101. unfold printable. repeat split; (reflexivity || lia).
  - exists [102; 97; 108; 115], 101. unfold printable. repeat split; (reflexivity || lia).
  - destruct (json_dumps_first (PInt z) eq_refl) as (c & tail & Hfirst & _).
    cbn [json_dumps] in *.
    assert (Hdigits : Forall (fun c => c = 45 \/ 48 <= c <= 57) (int_repr z)).
    { unfold int_repr. destruct (Z.to_int z) as [d|d].
      - eapply Forall_impl; [apply uint_chars_digits|]. cbn. auto.
      - constructor; [now left|].
        eapply Forall_impl; [apply uint_chars_digits|]. cbn. auto. }
    destruct (exists_last (l := int_repr z)) as (init & last & Hlast);
      [rewrite Hfirst; discriminate|].
    exists init, last. split; [exact Hlast|].
    rewrite Hlast in Hdigits. apply Forall_app in Hdigits as [_ Hd].
    apply Forall_cons in Hd as [Hd _]. unfold printable. lia.
  - exists ([34] ++ concat (map escape_char s)), 34.
    unfold printable. cbn [json_dumps]. unfold encode_basestring_ascii.
    rewrite <- app_assoc. repeat split; (reflexivity || lia).
  - exists (lit "[" ++ join (lit ", ") (map json_dumps items)), 93.
    unfold printable. cbn [json_dumps]. rewrite <- app_assoc.
    repeat split; (reflexivity || lia).
  - eexists (lit "{" ++ join (lit ", ") _), 125.
    unfold printable. cbn [json_dumps]. rewrite <- app_assoc.
    repeat split; (reflexivity || lia).
Qed.

End Wire.

(** *** [strip], [split] and [recv] on a frame *)

Lemma is_space_values (b : byte) :
  is_space b = true -> Byte.to_N b = 32 \/ 9 <= Byte.to_N b <= 13.
Proof. destruct b; cbn; intros Hb; try discriminate Hb; lia. Qed.

Lemma is_space_printable (c : N) :
  printable c -> c <> 32 -> is_space (byte_of c) = false.
Proof.
  unfold printable. intros Hc Hne.
  destruct (is_space (byte_of c)) eqn:E; [|reflexivity].
  apply is_space_values in E. rewrite byte_of_to_N in E; lia.
Qed.

Lemma strip_frame (b init tail : pybytes) (c d : byte) :
  b = c :: tail -> b = init ++ [d] ->
  is_space c = false -> is_space d = false ->
  strip b = b /\ strip (b ++ [x0a]) = b.
Proof.
  intros Hhead Hlast Hc Hd. unfold strip.
  assert (Hrev : lstrip (rev b) = rev b).
  { rewrite Hlast, rev_unit. cbn [lstrip]. now rewrite Hd. }
  split.
  - rewrite Hhead at 1. cbn [lstrip]. rewrite Hc, <- Hhead.
    rewrite Hrev. apply rev_involutive.
  - rewrite Hhead at 1. cbn [app lstrip]. rewrite Hc.
    change (c :: tail ++ [x0a]) with ((c :: tail) ++ [x0a]). rewrite <- Hhead.
    rewrite rev_unit. cbn [lstrip is_space]. rewrite Hrev. apply rev_involutive.
Qed.

Lemma split_one_line (b : pybytes) :
  Forall (fun c => c <> x0a) b -> split x0a b = [b].
Proof.
  induction 1 as [|c b Hc Hb IH]; [reflexivity|].
  cbn [split]. rewrite IH.
  destruct (Byte.eqb c x0a) eqn:E; [|reflexivity].
  apply Byte.byte_dec_bl in E. contradiction.
Qed.

Lemma recv_one_segment (n : nat) (seg sent : pybytes) (closes : bool) :
  seg <> [] ->
  recv n (Conn [seg] closes sent) =
    if (length seg <=? n)%nat then (Ret seg, Conn [] closes sent)
    else (Ret (take n seg), Conn [drop n seg] closes sent).
Proof.
  intros Hseg. unfold recv. cbn [pending recv_segments].
  destruct seg as [|b seg]; [congruence|].
  destruct (length (b :: seg) <=? n)%nat; reflexivity.
Qed.

End WireFacts.

(** ** tools/fake-daemon.py *)

Module FakeDaemonFacts.
Import Py Json FakeDaemon TextFacts JsonFacts RoundTripFacts WireFacts Examples.

(** *** The socket path before [bind] *)

Lemma remove_stale_socket_frame (fs fs' : filesystem) (path : string) :
  remove_stale_socket fs = Ok fs' ->
  path <> socket_path ->
  fs' !! path = fs !! path.
Proof.
  unfold remove_stale_socket, os_remove. intros Hrm Hpath.
  destruct (os_path_exists fs socket_path).
  - destruct (fs !! socket_path) as [[| | | |]|];
      try discriminate; injection Hrm as <-;
      apply lookup_delete_ne; congruence.
  - now injection Hrm as <-.
Qed.

(** A symbolic link whose target is missing is not seen by
    [os.path.exists], so it stays, and [bind] then finds the path taken. *)
Lemma dangling_symlink_is_left (fs : filesystem) (target : string) :
  fs !! socket_path = Some (Symlink target) ->
  fs !! target = None ->
  remove_stale_socket fs = Ok fs /\
  server_bind fs socket_path = Raise AddressInUse.
Proof.
  intros Hlink Htarget.
  unfold remove_stale_socket, os_path_exists, server_bind.
  cbn [stat]. rewrite Hlink. cbn [stat]. rewrite Htarget. split; reflexivity.
Qed.

(** C10, as amended.  When the entry at [socket_path] is one that
    [os.path.exists] reports (a file, a socket, a special file, or a
    symbolic link that leads to an entry) and is not a directory, the step
    deletes that entry, the link itself in the case of a link, and leaves
    every other path as it was. *)
Theorem stale_socket_removed_others_kept (fs : filesystem) (entry : node) :
  fs !! socket_path = Some entry ->
  entry <> Directory ->
  os_path_exists fs socket_path = true ->
  exists fs',
    remove_stale_socket fs = Ok fs' /\
    fs' !! socket_path = None /\
    forall path, path <> socket_path -> fs' !! path = fs !! path.
Proof.
  intros Hentry Hdir Hexists.
  exists (delete socket_path fs).
  split.
  - unfold remove_stale_socket, os_remove. rewrite Hexists, Hentry.
    destruct entry; congruence.
  - split; [apply lookup_delete_eq|].
    intros path Hpath. apply lookup_delete_ne. congruence.
Qed.

Section Facts.
Context `{FloatRepr}.

Lemma recv_keeps_sent (n : nat) (c : conn) : sent (recv n c).2 = sent c.
Proof.
  unfold recv. destruct (recv_segments n (pending c)) as [[data rest]|].
  - reflexivity.
  - destruct (closed c); reflexivity.
Qed.

(** [read_line] only reads. *)
Lemma read_line_keeps_sent (c : conn) : sent (read_line c).2 = sent c.
Proof.
  unfold read_line, mbind, io_mbind, io_bind.
  pose proof (recv_keeps_sent 1024 c) as Hrecv.
  destruct (recv 1024 c) as [[data| | |] c1]; simpl in *; try assumption.
  unfold io_lift.
  destruct (bind (first (split x0a (strip data))) json_loads); simpl; assumption.
Qed.

Lemma drain_keeps_sent (n : nat) (c : conn) : sent (drain n c).2 = sent c.
Proof.
  revert c. induction n as [|n IH]; intros c; [reflexivity|].
  cbn [drain]. unfold mbind, io_mbind, io_bind.
  pose proof (read_line_keeps_sent c) as Hread.
  destruct (read_line c) as [[v| | |] c1]; simpl in *; try assumption.
  rewrite IH. assumption.
Qed.

(** [send] writes the frame of its message and nothing else. *)
Lemma send_writes_frame (m : pyval) (c : conn) :
  send m c
  = (Ret tt, Conn (pending c) (closed c)
               (sent c ++ map byte_of (json_dumps m) ++ [x0a])).
Proof.
  unfold send, mbind, io_mbind, io_bind, io_lift.
  rewrite json_dumps_encodes. unfold conn_send. simpl.
  rewrite <- app_assoc. reflexivity.
Qed.

Lemma frame_bytes (m : pyval) :
  frame m = Ok (map byte_of (json_dumps m) ++ [x0a]).
Proof. unfold frame. rewrite json_dumps_encodes. reflexivity. Qed.

(** What [greet] does once [read_line] has returned the request: the
    reply is built and sent first, the edit is built and sent after it. *)
Lemma greet_run (c c1 : conn) (open : pyval) :
  read_line c = (Ret open, c1) ->
  greet c =
    match response open with
    | Raise e => (Exc e, c1)
    | Ok reply =>
        let c2 := Conn (pending c1) (closed c1)
                    (sent c1 ++ map byte_of (json_dumps reply) ++ [x0a]) in
        match the_beautiful_edit open with
        | Raise e => (Exc e, c2)
        | Ok edit =>
            (Ret tt, Conn (pending c1) (closed c1)
                       (sent c2 ++ map byte_of (json_dumps edit) ++ [x0a]))
        end
    end.
Proof.
  intros Hread. unfold greet, mbind, io_mbind, io_bind. rewrite Hread.
  unfold io_lift at 1. destruct (response open) as [reply|e]; [|reflexivity].
  rewrite send_writes_frame. cbn [pending closed sent].
  unfold io_lift. destruct (the_beautiful_edit open) as [edit|e]; [|reflexivity].
  rewrite send_writes_frame. reflexivity.
Qed.

(** C4, as amended.  Whatever else a request holds (its [method], its
    [params], a [uri] or none), once [read_line] has returned it and it has
    an [id], the first thing the daemon writes is the frame of the success
    response with that id: the dict of jsonrpc 2.0, the id of the request
    and the result success. *)
Theorem open_reply_echoes_id (c c1 : conn) (open id : pyval) :
  read_line c = (Ret open, c1) ->
  getitem open (lit "id") = Ok id ->
  exists reply rest,
    frame (PDict [(lit "jsonrpc", PStr (lit "2.0"));
                  (lit "id", id);
                  (lit "result", PStr (lit "success"))]) = Ok reply /\
    sent (greet c).2 = sent c ++ reply ++ rest.
Proof.
  intros Hread Hid.
  pose proof (read_line_keeps_sent c) as Hsent. rewrite Hread in Hsent.
  simpl in Hsent.
  eexists. rewrite (greet_run c c1 open Hread).
  unfold response. rewrite Hid. cbn [bind].
  destruct (the_beautiful_edit open) as [edit|e].
  - eexists. split; [apply frame_bytes|]. cbn [snd sent].
    rewrite Hsent. rewrite <- !app_assoc. reflexivity.
  - exists []. split; [apply frame_bytes|]. cbn [snd sent].
    rewrite Hsent. rewrite app_nil_r. reflexivity.
Qed.

(** C6, as amended.  The edit the daemon pushes is fixed but for its
    [uri], which is the [uri] of the request's [params]: method edit,
    revision 0 and one delta, which replaces the range from line 0,
    character 0 to line 0, character 1 by AaA. *)
Theorem edit_is_fixed_except_uri (open edit : pyval) :
  the_beautiful_edit open = Ok edit ->
  exists uri,
    bind (getitem open (lit "params")) (fun params => getitem params (lit "uri"))
    = Ok uri /\
    edit =
      PDict
        [(lit "jsonrpc", PStr (lit "2.0"));
         (lit "method", PStr (lit "edit"));
         (lit "params",
          PDict
            [(lit "uri", uri);
             (lit "revision", PInt 0);
             (lit "delta",
              PList
                [PDict
                   [(lit "range",
                     PDict
                       [(lit "start",
                         PDict [(lit "line", PInt 0); (lit "character", PInt 0)]);
                        (lit "end",
                         PDict [(lit "line", PInt 0); (lit "character", PInt 1)])]);
                    (lit "replacement", PStr (lit "AaA"))]])])].
Proof.
  unfold the_beautiful_edit. intros Hedit.
  destruct (getitem open (lit "params")) as [params|e]; [|discriminate].
  cbn [bind] in *.
  destruct (getitem params (lit "uri")) as [uri|e]; [|discriminate].
  exists uri. split; [reflexivity|].
  cbn [bind] in Hedit. injection Hedit as <-. reflexivity.
Qed.

(** C7.  All that the daemon writes on a connection it writes before the
    inner loop: serving the connection leaves [sent] as the greeting, which
    ends with the edit, left it; and however many iterations the inner loop
    makes, from whatever state, it leaves [sent] as it found it. *)
Theorem nothing_written_after_edit (c : conn) :
  sent (serve c).2 = sent (greet c).2 /\
  forall (n : nat) (c1 : conn), sent (drain n c1).2 = sent c1.
Proof.
  split; [|intros n c1; apply drain_keeps_sent].
  unfold serve, mbind, io_mbind, io_bind.
  destruct (greet c) as [[[]| | |] c1]; try reflexivity.
  unfold drain_loop. cbn [snd]. apply drain_keeps_sent.
Qed.

(** *** The inner loop ends, and never by returning *)

Lemma recv_segments_progress (n : nat) (segs rest : list pybytes) (data : pybytes) :
  (0 < n)%nat ->
  recv_segments n segs = Some (data, rest) ->
  (length (concat rest) + length rest < length (concat segs) + length segs)%nat.
Proof.
  intros Hn. induction segs as [|seg segs IH]; [discriminate|].
  destruct seg as [|b seg]; cbn [recv_segments].
  - intros Hrecv. apply IH in Hrecv. simpl. lia.
  - destruct (length (b :: seg) <=? n)%nat eqn:Hlen.
    + intros [= <- <-]. cbn [concat]. rewrite length_app. simpl. lia.
    + intros [= <- <-]. apply Nat.leb_gt in Hlen.
      cbn [concat]. rewrite !length_app, length_drop.
      simpl in *. lia.
Qed.

Lemma read_line_progress (c c1 : conn) (v : pyval) :
  read_line c = (Ret v, c1) -> (unread c1 < unread c)%nat.
Proof.
  unfold read_line, mbind, io_mbind, io_bind, recv.
  destruct (recv_segments 1024 (pending c)) as [[data rest]|] eqn:Hrecv.
  - unfold io_lift.
    destruct (bind (first (split x0a (strip data))) json_loads); [|discriminate].
    intros [= _ <-]. unfold unread. simpl.
    eapply recv_segments_progress; [|exact Hrecv]. lia.
  - destruct (closed c); discriminate.
Qed.

Lemma drain_ends (n : nat) (c : conn) :
  (unread c < n)%nat ->
  (exists e, (drain n c).1 = Exc e) \/ (drain n c).1 = Blocked.
Proof.
  revert c. induction n as [|n IH]; intros c Hn; [lia|].
  cbn [drain]. unfold mbind, io_mbind, io_bind.
  destruct (read_line c) as [[v| e | |] c1] eqn:Hread.
  - apply IH. apply read_line_progress in Hread. lia.
  - left. eauto.
  - right. reflexivity.
  - exfalso. revert Hread.
    unfold read_line, mbind, io_mbind, io_bind, recv.
    destruct (recv_segments 1024 (pending c)) as [[data rest]|].
    + unfold io_lift.
      destruct (bind (first (split x0a (strip data))) json_loads); discriminate.
    + destruct (closed c); discriminate.
Qed.

(** The inner loop ends with an exception or waits for ever in [recv]:
    it never returns, and the iterations it is given are never used up. *)
Lemma drain_loop_ends (c : conn) :
  (exists e, (drain_loop c).1 = Exc e) \/ (drain_loop c).1 = Blocked.
Proof. unfold drain_loop. apply drain_ends. lia. Qed.

Lemma greet_not_running (c : conn) : (greet c).1 <> Running.
Proof.
  unfold greet, mbind, io_mbind, io_bind.
  destruct (read_line c) as [[open| e | |] c1] eqn:Hread; try discriminate.
  - unfold io_lift at 1. destruct (response open); [|discriminate].
    rewrite send_writes_frame.
    unfold io_lift. destruct (the_beautiful_edit open); [|discriminate].
    rewrite send_writes_frame. discriminate.
  - exfalso. revert Hread.
    unfold read_line, mbind, io_mbind, io_bind, recv.
    destruct (recv_segments 1024 (pending c)) as [[data rest]|].
    + unfold io_lift.
      destruct (bind (first (split x0a (strip data))) json_loads); discriminate.
    + destruct (closed c); discriminate.
Qed.

(** Serving a connection never comes back to the outer loop. *)
Lemma serve_ends (c : conn) :
  (exists e, (serve c).1 = Exc e) \/ (serve c).1 = Blocked.
Proof.
  unfold serve, mbind, io_mbind, io_bind.
  pose proof (greet_not_running c) as Hrun.
  destruct (greet c) as [[[]| e | |] c1]; simpl in *.
  - apply drain_loop_ends.
  - left. eauto.
  - right. reflexivity.
  - congruence.
Qed.

(** The daemon accepts at most one connection in its whole life. *)
Lemma at_most_one_connection_served (fs : filesystem) (backlog : list conn) :
  (length (served (main fs backlog)) <= 1)%nat /\
  waiting (main fs backlog) = tail backlog \/
  served (main fs backlog) = [] /\ waiting (main fs backlog) = backlog.
Proof.
  unfold main.
  destruct (remove_stale_socket fs) as [fs1|e]; [|right; split; reflexivity].
  destruct (server_bind fs1 socket_path) as [fs2|e]; [|right; split; reflexivity].
  destruct backlog as [|c rest]; [right; split; reflexivity|].
  left. cbn [accept_loop].
  pose proof (serve_ends c) as Hends.
  destruct (serve c) as [[[]| e | |] c1]; simpl in *.
  - destruct Hends as [[e He]|He]; discriminate.
  - split; [lia | reflexivity].
  - split; [lia | reflexivity].
  - split; [lia | reflexivity].
Qed.

(** *** What [read_line] does read back *)

(** A frame, or a frame short of its newline, is read as its message. *)
Lemma frame_lines (v : pyval) :
  representable v = true ->
  let text := map byte_of (json_dumps v) in
  bind (first (split x0a (strip text))) json_loads = Ok v /\
  bind (first (split x0a (strip (text ++ [x0a])))) json_loads = Ok v.
Proof.
  intros Hv text.
  pose proof (json_dumps_printable v) as Hprint.
  destruct (json_dumps_first v Hv) as (c & tail & Hfirst & Hws & _).
  destruct (json_dumps_last v Hv) as (init & d & Hlast & Hd & Hd32).
  assert (Hc : printable c).
  { rewrite Hfirst in Hprint. now apply Forall_cons in Hprint as [Hc _]. }
  assert (Hc32 : c <> 32).
  { unfold is_ws in Hws. intros ->. discriminate Hws. }
  destruct (strip_frame text (map byte_of init) (map byte_of tail) (byte_of c) (byte_of d))
    as [Hstrip Hstripnl].
  - unfold text. now rewrite Hfirst.
  - unfold text. now rewrite Hlast, map_app.
  - now apply is_space_printable.
  - now apply is_space_printable.
  - rewrite Hstrip, Hstripnl.
    rewrite split_one_line.
    + cbn [first bind]. split; now apply json_loads_json_dumps.
    + unfold text. clear -Hprint.
      induction Hprint as [|x s Hx Hs IH]; constructor; [|exact IH].
      intros Heq. apply (f_equal Byte.to_N) in Heq.
      unfold printable in Hx. rewrite byte_of_to_N in Heq by lia.
      cbn in Heq. lia.
Qed.

(** A representable message whose JSON text is at most 1024 bytes long,
    arriving in one piece, is read back by [read_line]. *)
Lemma short_message_is_read_back (v : pyval) :
  representable v = true ->
  (length (json_dumps v) <= 1024)%nat ->
  (read_line (loopback (send v (incoming [] false)).2)).1 = Ret v.
Proof.
  intros Hv Hlen.
  rewrite send_writes_frame. unfold loopback, incoming.
  cbn [snd sent app].
  destruct (frame_lines v Hv) as [Htext Hframe]. cbv zeta in *.
  unfold read_line, mbind, io_mbind, io_bind.
  rewrite recv_one_segment by (destruct (map byte_of (json_dumps v)); discriminate).
  rewrite length_app, length_map. cbn [length].
  destruct (length (json_dumps v) + 1 <=? 1024)%nat eqn:E.
  - rewrite Hframe. reflexivity.
  - apply Nat.leb_gt in E.
    rewrite take_app_length' by (rewrite length_map; lia).
    rewrite Htext. reflexivity.
Qed.

(** *** Where [read_line] falls short of its comment *)

(** C2, on a message that does not fit one [recv].  The frame [send]
    writes for [long_message] is longer than 1024 bytes; [read_line] on the
    other end takes its first 1024 bytes, fails to decode them and leaves
    the rest unread, where the claim has it return the message.  The size
    is all that is in the way: every representable message whose JSON text
    has at most 1024 bytes is read back. *)
Theorem long_message_is_not_read_back :
  representable long_message = true /\
  (exists c : conn,
     send long_message (incoming [] false) = (Ret tt, c) /\
     (1024 < length (sent c))%nat /\
     read_line (loopback c)
     = (Exc JSONDecodeError, incoming [drop 1024 (sent c)] false)) /\
  (forall v : pyval,
     representable v = true ->
     (length (json_dumps v) <= 1024)%nat ->
     (read_line (loopback (send v (incoming [] false)).2)).1 = Ret v).
Proof.
  split; [vm_compute; reflexivity|].
  split; [|exact short_message_is_read_back].
  eexists. split; [apply send_writes_frame|].
  split; vm_compute; [lia | reflexivity].
Qed.

(** C3, on two ways the peer's bytes can arrive.  When two frames arrive
    in one segment, [read_line] returns the first object and the bytes of
    the second are gone: nothing is left to read.  When one frame arrives
    in two segments, [read_line] does not wait for the second: it fails on
    the first. *)
Theorem read_line_is_one_recv :
  let first_frame := wire (open_request 1 (lit "file:///tmp/a.txt")) in
  let second_frame := wire (open_request 2 (lit "file:///tmp/b.txt")) in
  read_line (incoming [first_frame ++ second_frame] false)
  = (Ret (open_request 1 (lit "file:///tmp/a.txt")), incoming [] false) /\
  read_line (incoming [take 10 first_frame; drop 10 first_frame] false)
  = (Exc JSONDecodeError, incoming [drop 10 first_frame] false).
Proof. split; vm_compute; reflexivity. Qed.

(** C5, on a peer that sends its open request and closes.  The daemon
    answers, then the next [read_line] gets no bytes and its decoder
    raises; nothing catches the exception, so it ends the whole daemon, and
    the connections behind the first one are never accepted.  No backlog
    ever gets a second connection served. *)
Theorem closed_peer_ends_the_daemon (fs : filesystem) (next : conn) (rest : list conn) :
  let c := incoming [wire (open_request 1 (lit "file:///tmp/a.txt"))] true in
  status (accept_loop fs (c :: next :: rest) []) = Exc JSONDecodeError /\
  waiting (accept_loop fs (c :: next :: rest) []) = next :: rest /\
  forall (fs' : filesystem) (backlog : list conn),
    (length (served (main fs' backlog)) <= 1)%nat.
Proof.
  intros c. cbn [accept_loop].
  assert (Hserve : (serve c).1 = Exc JSONDecodeError) by (vm_compute; reflexivity).
  destruct (serve c) as [[[]| e | |] c1]; simpl in Hserve; try discriminate.
  injection Hserve as ->.
  split; [reflexivity|]. split; [reflexivity|].
  intros fs' backlog.
  destruct (at_most_one_connection_served fs' backlog) as [[Hone _]|[Hnone _]].
  - exact Hone.
  - rewrite Hnone. simpl. lia.
Qed.

End Facts.

End FakeDaemonFacts.

(** ** The two scripts side by side *)

Module BothScripts.
Import Py Json DummyJsonrpc FakeDaemon.

(** C9.  The edit message of dummy-jsonrpc.py has an [id], the integer 2;
    the edit message fake-daemon.py pushes has none: looking it up raises
    KeyError. *)
Theorem edit_id_in_one_script_only `{PathResolve}
    (file : pystr) (open edit : pyval) :
  the_beautiful_edit open = Ok edit ->
  (exists m,
     message {| args_message_type := MsgEdit; args_file := file |} = Ok m /\
     getitem m (lit "id") = Ok (PInt 2)) /\
  getitem edit (lit "id") = Raise (KeyError (lit "id")).
Proof.
  intros Hedit. split.
  - eexists. split; reflexivity.
  - unfold the_beautiful_edit in Hedit.
    destruct (getitem open (lit "params")) as [params|e]; [|discriminate].
    cbn [bind] in Hedit.
    destruct (getitem params (lit "uri")) as [uri|e]; [|discriminate].
    cbn [bind] in Hedit. injection Hedit as <-. reflexivity.
Qed.

End BothScripts.

(** ** The properties at sample inputs *)

Module Scenarios.
Import Py Json DummyJsonrpc FakeDaemon Examples.
Import FakeDaemonFacts BothScripts.

(** The reply to an open request with id 1, as it goes over the wire. *)
Example reply_to_id_1 :
  (@greet no_floats (incoming [wire (open_request 1 (lit "file:///tmp/a.txt"))] false)).2
  = Conn [] false
      (quoted "{'jsonrpc': '2.0', 'id': 1, 'result': 'success'}" ++ [x0a]
       ++ quoted "{'jsonrpc': '2.0', 'method': 'edit', 'params': {'uri': 'file:///tmp/a.txt', 'revision': 0, 'delta': [{'range': {'start': {'line': 0, 'character': 0}, 'end': {'line': 0, 'character': 1}}, 'replacement': 'AaA'}]}}"
       ++ [x0a]).
Proof. vm_compute. reflexivity. Qed.

(** What dummy-jsonrpc.py prints for an open message. *)
Example dummy_open_output :
  @stdout no_floats in_root {| args_message_type := MsgOpen; args_file := lit "a.txt" |}
  = Ok (blit "Content-Length: 81" ++ [x0d; x0a; x0d; x0a]
        ++ quoted "{'jsonrpc': '2.0', 'id': 1, 'method': 'open', 'params': {'uri': 'file:///a.txt'}}"
        ++ [x0a]).
Proof. vm_compute. reflexivity. Qed.

(** C4 at the request of scenario A. *)
Lemma open_reply_echoes_id_scenario :
  exists reply rest,
    @frame no_floats
      (PDict [(lit "jsonrpc", PStr (lit "2.0"));
              (lit "id", PInt 1);
              (lit "result", PStr (lit "success"))]) = Ok reply /\
    sent (@greet no_floats
            (incoming [wire (open_request 1 (lit "file:///tmp/a.txt"))] false)).2
    = sent (incoming [wire (open_request 1 (lit "file:///tmp/a.txt"))] false)
      ++ reply ++ rest.
Proof.
  apply (@open_reply_echoes_id no_floats
           (incoming [wire (open_request 1 (lit "file:///tmp/a.txt"))] false)
           (incoming [] false)
           (open_request 1 (lit "file:///tmp/a.txt"))
           (PInt 1)).
  - vm_compute. reflexivity.
  - vm_compute. reflexivity.
Defined.

(** C4 as the claim has it fails: a request whose [uri] is empty is
    answered like any other, so an answer does not tell that the [uri] was
    there and not empty. *)
Lemma success_reply_without_uri_check :
  ~ (forall (c c1 : conn) (open : pyval),
       read_line c = (Ret open, c1) ->
       sent (@greet no_floats c).2 <> sent c ->
       exists uri,
         bind (getitem open (lit "params")) (fun params => getitem params (lit "uri"))
         = Ok (PStr uri) /\ uri <> []).
Proof.
  intros Hclaim.
  destruct (Hclaim (incoming [wire (open_request 1 [])] false)
                   (incoming [] false)
                   (open_request 1 [])) as [uri [Huri Hnonempty]].
  - vm_compute. reflexivity.
  - vm_compute. discriminate.
  - vm_compute in Huri. injection Huri as <-. now apply Hnonempty.
Qed.

(** C6 at an open request. *)
Lemma edit_is_fixed_except_uri_scenario :
  exists uri,
    bind (getitem (open_request 1 (lit "file:///tmp/a.txt")) (lit "params"))
         (fun params => getitem params (lit "uri")) = Ok uri /\
    PDict
      [(lit "jsonrpc", PStr (lit "2.0"));
       (lit "method", PStr (lit "edit"));
       (lit "params",
        PDict
          [(lit "uri", PStr (lit "file:///tmp/a.txt"));
           (lit "revision", PInt 0);
           (lit "delta",
            PList
              [PDict
                 [(lit "range",
                   PDict [(lit "start", position 0 0); (lit "end", position 0 1)]);
                  (lit "replacement", PStr (lit "AaA"))]])])]
    = PDict
        [(lit "jsonrpc", PStr (lit "2.0"));
         (lit "method", PStr (lit "edit"));
         (lit "params",
          PDict
            [(lit "uri", uri);
             (lit "revision", PInt 0);
             (lit "delta",
              PList
                [PDict
                   [(lit "range",
                     PDict
                       [(lit "start",
                         PDict [(lit "line", PInt 0); (lit "character", PInt 0)]);
                        (lit "end",
                         PDict [(lit "line", PInt 0); (lit "character", PInt 1)])]);
                    (lit "replacement", PStr (lit "AaA"))]])])].
Proof.
  apply (edit_is_fixed_except_uri (open_request 1 (lit "file:///tmp/a.txt"))).
  reflexivity.
Defined.

(** C6 as the claim has it fails: two requests that open different files
    get different edits. *)
Lemma edit_follows_the_request_uri :
  ~ (forall open1 open2 edit1 edit2 : pyval,
       the_beautiful_edit open1 = Ok edit1 ->
       the_beautiful_edit open2 = Ok edit2 ->
       edit1 = edit2).
Proof.
  intros Hclaim.
  specialize (Hclaim (open_request 1 (lit "file:///tmp/a.txt"))
                     (open_request 1 (lit "file:///tmp/b.txt"))
                     _ _ eq_refl eq_refl).
  discriminate Hclaim.
Qed.

(** C9 at an open request. *)
Lemma edit_id_in_one_script_only_scenario :
  (exists m,
     @message in_root {| args_message_type := MsgEdit; args_file := lit "a.txt" |} = Ok m /\
     getitem m (lit "id") = Ok (PInt 2)) /\
  getitem
    (PDict
       [(lit "jsonrpc", PStr (lit "2.0"));
        (lit "method", PStr (lit "edit"));
        (lit "params",
         PDict
           [(lit "uri", PStr (lit "file:///tmp/a.txt"));
            (lit "revision", PInt 0);
            (lit "delta",
             PList
               [PDict
                  [(lit "range",
                    PDict [(lit "start", FakeDaemon.position 0 0);
                           (lit "end", FakeDaemon.position 0 1)]);
                   (lit "replacement", PStr (lit "AaA"))]])])])
    (lit "id")
  = Raise (KeyError (lit "id")).
Proof.
  apply (@edit_id_in_one_script_only in_root (lit "a.txt")
           (open_request 1 (lit "file:///tmp/a.txt"))).
  reflexivity.
Defined.

(** C10 at a stale socket file, with another file beside it. *)
Lemma stale_socket_removed_others_kept_scenario :
  exists fs',
    remove_stale_socket
      (<[socket_path := SocketFile]> {["/tmp/teamtype-test/notes.txt"%string := RegularFile]})
    = Ok fs' /\
    fs' !! socket_path = None /\
    forall path, path <> socket_path ->
      fs' !! path
      = (<[socket_path := SocketFile]>
           ({["/tmp/teamtype-test/notes.txt"%string := RegularFile]} : filesystem)) !! path.
Proof.
  apply (stale_socket_removed_others_kept
           (<[socket_path := SocketFile]> {["/tmp/teamtype-test/notes.txt"%string := RegularFile]})
           SocketFile).
  - vm_compute. reflexivity.
  - discriminate.
  - vm_compute. reflexivity.
Defined.

(** C10 as the claim has it fails: a directory at [socket_path] is not
    deleted, [os.remove] raises IsADirectoryError instead. *)
Lemma directory_at_socket_path_stays :
  ~ (forall (fs : filesystem) (entry : node),
       fs !! socket_path = Some entry ->
       exists fs',
         remove_stale_socket fs = Ok fs' /\ fs' !! socket_path = None).
Proof.
  intros Hclaim.
  destruct (Hclaim {[socket_path := Directory]} Directory) as [fs' [Hrm _]].
  - vm_compute. reflexivity.
  - vm_compute in Hrm. discriminate Hrm.
Qed.

End Scenarios.

(* ===================================================================== *)
(** * Part III: further properties of the two scripts                     *)
(* ===================================================================== *)

(** ** More sample messages *)

Module MoreExamples.
Import Py Json FakeDaemon Examples.

(** The frame [send] writes for a message: its JSON text, one byte per
    character, and a newline (see [send_writes_frame]). *)
Definition json_line `{FloatRepr} (v : pyval) : pybytes :=
  map byte_of (json_dumps v) ++ [x0a].

(** A byte of ASCII text other than NUL. *)
Definition plain (b : byte) : Prop := 0 < Byte.to_N b < 128.


(** A request with an id and no params. *)
Definition request_without_params : pyval :=
  PDict [(lit "jsonrpc", PStr (lit "2.0")); (lit "id", PInt 7);
         (lit "method", PStr (lit "open"))].

(** The edit pushed for the file of the sample open request. *)
Definition sample_edit : pyval :=
  PDict
    [(lit "jsonrpc", PStr (lit "2.0"));
     (lit "method", PStr (lit "edit"));
     (lit "params",
      PDict
        [(lit "uri", PStr (lit "file:///tmp/a.txt"));
         (lit "revision", PInt 0);
         (lit "delta",
          PList
            [PDict
               [(lit "range",
                 PDict [(lit "start", FakeDaemon.position 0 0);
                        (lit "end", FakeDaemon.position 0 1)]);
                (lit "replacement", PStr (lit "AaA"))]])])].

(** The reply to a request with the given id. *)
Definition sample_reply (id : Z) : pyval :=
  PDict [(lit "jsonrpc", PStr (lit "2.0")); (lit "id", PInt id);
         (lit "result", PStr (lit "success"))].

(** What dummy-jsonrpc.py prints for the file a.txt in the root. *)
Definition dummy_open_bytes : pybytes :=
  blit "Content-Length: 81" ++ [x0d; x0a; x0d; x0a]
  ++ quoted "{'jsonrpc': '2.0', 'id': 1, 'method': 'open', 'params': {'uri': 'file:///a.txt'}}"
  ++ [x0a].

End MoreExamples.

(** ** What the scripts do beyond the claims *)

Module MoreFacts.
Import Py Json DummyJsonrpc FakeDaemon Examples MoreExamples.
Import TextFacts JsonFacts RoundTripFacts WireFacts FakeDaemonFacts.

(** *** What one [read_line] takes from the connection *)

Lemma recv_segments_stream (n : nat) (segs rest : list pybytes) (data : pybytes) :
  recv_segments n segs = Some (data, rest) ->
  concat segs = data ++ concat rest /\ (length data <= n)%nat.
Proof.
  induction segs as [|seg segs IH]; [discriminate|].
  destruct seg as [|b seg]; cbn [recv_segments].
  - intros Hrecv. apply IH in Hrecv. exact Hrecv.
  - destruct (length (b :: seg) <=? n)%nat eqn:Hlen.
    + intros [= <- <-]. apply Nat.leb_le in Hlen. split; [reflexivity | exact Hlen].
    + intros [= <- <-]. split.
      * cbn [concat]. rewrite app_assoc, take_drop. reflexivity.
      * rewrite length_take. lia.
Qed.

Lemma recv_segments_nothing (n : nat) (segs : list pybytes) :
  recv_segments n segs = None <-> concat segs = [].
Proof.
  induction segs as [|seg segs IH]; [split; reflexivity|].
  destruct seg as [|b seg]; cbn [recv_segments concat app].
  - exact IH.
  - split; [|discriminate].
    destruct (length (b :: seg) <=? n)%nat; discriminate.
Qed.

(** X1.  Whatever arrives, one [read_line] takes at most 1024 bytes, from
    the front of the bytes not read yet; the bytes behind them stay, in
    order, and nothing is written. *)
Theorem read_line_takes_a_prefix (c : conn) :
  exists data : pybytes,
    concat (pending c) = data ++ concat (pending (read_line c).2) /\
    (length data <= 1024)%nat /\
    closed (read_line c).2 = closed c /\
    sent (read_line c).2 = sent c.
Proof.
  unfold read_line, mbind, io_mbind, io_bind, recv.
  destruct (recv_segments 1024 (pending c)) as [[data rest]|] eqn:Hrecv.
  - apply recv_segments_stream in Hrecv as [Hstream Hlen].
    exists data. unfold io_lift.
    destruct (bind (first (split x0a (strip data))) json_loads);
      cbn [snd pending closed sent]; auto.
  - apply recv_segments_nothing in Hrecv. exists [].
    destruct (closed c) eqn:Hclosed.
    + unfold io_lift.
      destruct (bind (first (split x0a (strip []))) json_loads);
        cbn [snd pending closed sent concat app length]; repeat split; auto; lia.
    + cbn [snd app length]. repeat split; auto; lia.
Qed.

(** X2.  When no byte is left to read, [read_line] raises JSONDecodeError
    if the peer has closed (the decoder is given the empty bytes), and
    waits for ever if it has not. *)
Theorem read_line_without_bytes (c : conn) :
  concat (pending c) = [] ->
  (read_line c).1 = if closed c then Exc JSONDecodeError else Blocked.
Proof.
  intros Hempty. apply recv_segments_nothing with (n := 1024%nat) in Hempty.
  unfold read_line, mbind, io_mbind, io_bind, recv. rewrite Hempty.
  destruct (closed c); reflexivity.
Qed.




Lemma printable_bytes_no_newline (s : pystr) :
  Forall printable s -> Forall (fun b => b <> x0a) (map byte_of s).
Proof.
  induction 1 as [|c s Hc Hs IH]; constructor; [|exact IH].
  intros Heq. apply (f_equal Byte.to_N) in Heq.
  unfold printable in Hc. rewrite byte_of_to_N in Heq by lia.
  cbn in Heq. lia.
Qed.

Lemma split_at_newline (text rest : pybytes) :
  Forall (fun b => b <> x0a) text ->
  split x0a (text ++ x0a :: rest) = text :: split x0a rest.
Proof.
  induction 1 as [|c text Hc Htext IH]; [reflexivity|].
  cbn [app split]. rewrite IH.
  destruct (Byte.eqb c x0a) eqn:E; [|reflexivity].
  apply Byte.byte_dec_bl in E. contradiction.
Qed.

Section Greeting.
Context `{FloatRepr}.


(** X4.  The reply goes out before [params] is looked at: a request that
    has an [id] but no [params], or no [uri] in them, is answered with the
    success reply, and only then the exception ends the daemon; no edit is
    written. *)
Theorem greet_without_uri (c c1 : conn) (open id : pyval) (e : exn) :
  read_line c = (Ret open, c1) ->
  getitem open (lit "id") = Ok id ->
  the_beautiful_edit open = Raise e ->
  exists reply,
    frame (PDict [(lit "jsonrpc", PStr (lit "2.0"));
                  (lit "id", id);
                  (lit "result", PStr (lit "success"))]) = Ok reply /\
    greet c = (Exc e, Conn (pending c1) (closed c1) (sent c ++ reply)).
Proof.
  intros Hread Hid Hedit.
  pose proof (read_line_keeps_sent c) as Hsent. rewrite Hread in Hsent.
  cbn [snd] in Hsent.
  eexists. split; [apply frame_bytes|].
  rewrite (greet_run c c1 open Hread). unfold response. rewrite Hid.
  cbn [bind]. rewrite Hedit. cbv zeta. rewrite Hsent. reflexivity.
Qed.

(** X5.  A request with an [id] and a [uri] in its [params] is greeted in
    full: the frame of the reply, then the frame of the edit, and nothing
    else; the bytes of the peer that were not read stay as they were. *)
Theorem greet_sends_reply_then_edit (c c1 : conn) (open id edit : pyval) :
  read_line c = (Ret open, c1) ->
  getitem open (lit "id") = Ok id ->
  the_beautiful_edit open = Ok edit ->
  exists reply push,
    frame (PDict [(lit "jsonrpc", PStr (lit "2.0"));
                  (lit "id", id);
                  (lit "result", PStr (lit "success"))]) = Ok reply /\
    frame edit = Ok push /\
    greet c = (Ret tt, Conn (pending c1) (closed c1) (sent c ++ reply ++ push)).
Proof.
  intros Hread Hid Hedit.
  pose proof (read_line_keeps_sent c) as Hsent. rewrite Hread in Hsent.
  cbn [snd] in Hsent.
  eexists _, _. split; [apply frame_bytes|]. split; [apply frame_bytes|].
  rewrite (greet_run c c1 open Hread). unfold response. rewrite Hid.
  cbn [bind]. rewrite Hedit. cbv zeta. cbn [sent]. rewrite Hsent.
  rewrite <- !app_assoc. reflexivity.
Qed.


End Greeting.

(** *** A chunk that holds more than one frame *)

Lemma lstrip_before_line (a text_rev : pybytes) (d : byte) (init_rev : pybytes) :
  text_rev = d :: init_rev -> is_space d = false ->
  exists a', lstrip (a ++ x0a :: text_rev) = a' ++ text_rev /\
             (a' = [] \/ exists a'', a' = a'' ++ [x0a]).
Proof.
  intros Htext Hd. induction a as [|x a IH].
  - exists []. split; [|now left].
    cbn [app lstrip is_space]. rewrite Htext. cbn [lstrip]. now rewrite Hd.
  - cbn [app lstrip]. destruct (is_space x).
    + exact IH.
    + exists ((x :: a) ++ [x0a]). split; [|right; eauto].
      rewrite <- app_assoc. reflexivity.
Qed.

Lemma strip_first_line (text junk init tail : pybytes) (c d : byte) :
  text = c :: tail -> text = init ++ [d] ->
  is_space c = false -> is_space d = false ->
  Forall (fun b => b <> x0a) text ->
  first (split x0a (strip (text ++ x0a :: junk))) = Ok text.
Proof.
  intros Hhead Hlast Hc Hd Hnl. unfold strip.
  assert (Hl : lstrip (text ++ x0a :: junk) = text ++ x0a :: junk).
  { rewrite Hhead. cbn [app lstrip]. now rewrite Hc. }
  rewrite Hl.
  assert (Hrev : rev (text ++ x0a :: junk) = rev junk ++ x0a :: rev text).
  { rewrite rev_app_distr. cbn [rev]. rewrite <- app_assoc. reflexivity. }
  rewrite Hrev.
  destruct (lstrip_before_line (rev junk) (rev text) d (rev init))
    as (a' & Hstrip & Ha'); [now rewrite Hlast, rev_unit | exact Hd |].
  rewrite Hstrip, rev_app_distr, rev_involutive.
  destruct Ha' as [-> | [a'' ->]].
  - cbn [rev app]. rewrite app_nil_r. now rewrite split_one_line.
  - rewrite rev_unit. now rewrite split_at_newline.
Qed.

Lemma recv_segments_head (n : nat) (seg : pybytes) (rest : list pybytes) :
  seg <> [] -> (length seg <= n)%nat ->
  recv_segments n (seg :: rest) = Some (seg, rest).
Proof.
  intros Hseg Hlen. destruct seg as [|b seg]; [congruence|].
  cbn [recv_segments]. apply Nat.leb_le in Hlen. now rewrite Hlen.
Qed.

Section Chunks.
Context `{FloatRepr}.

Lemma json_text_ends (v : pyval) :
  representable v = true ->
  exists (c d : byte) (tail init : pybytes),
    map byte_of (json_dumps v) = c :: tail /\
    map byte_of (json_dumps v) = init ++ [d] /\
    is_space c = false /\ is_space d = false.
Proof.
  intros Hv.
  pose proof (json_dumps_printable v) as Hprint.
  destruct (json_dumps_first v Hv) as (c & tail & Hfirst & Hws & _).
  destruct (json_dumps_last v Hv) as (init & d & Hlast & Hd & Hd32).
  assert (Hc : printable c).
  { rewrite Hfirst in Hprint. now apply Forall_cons in Hprint as [Hc _]. }
  assert (Hc32 : c <> 32).
  { unfold is_ws in Hws. intros ->. discriminate Hws. }
  exists (byte_of c), (byte_of d), (map byte_of tail), (map byte_of init).
  split; [now rewrite Hfirst|]. split; [now rewrite Hlast, map_app|].
  split; now apply is_space_printable.
Qed.

Lemma read_line_chunk (v : pyval) (junk : pybytes) (rest : list pybytes)
    (closes : bool) (written : pybytes) :
  representable v = true ->
  (length (json_dumps v) + 1 + length junk <= 1024)%nat ->
  read_line (Conn ((json_line v ++ junk) :: rest) closes written)
  = (Ret v, Conn rest closes written).
Proof.
  intros Hv Hlen.
  destruct (json_text_ends v Hv) as (c & d & tail & init & Hhead & Hlast & Hc & Hd).
  pose proof (printable_bytes_no_newline _ (json_dumps_printable v)) as Hnl.
  unfold read_line, mbind, io_mbind, io_bind, recv. cbn [pending closed sent].
  unfold json_line. rewrite <- app_assoc. cbn [app].
  assert (Hrecv : recv_segments 1024 ((map byte_of (json_dumps v) ++ x0a :: junk) :: rest)
                  = Some (map byte_of (json_dumps v) ++ x0a :: junk, rest)).
  { apply recv_segments_head.
    - destruct (map byte_of (json_dumps v)); discriminate.
    - rewrite length_app, length_map. cbn [length]. lia. }
  rewrite Hrecv.
  rewrite (strip_first_line _ junk init tail c d Hhead Hlast Hc Hd Hnl).
  cbn [bind]. rewrite (json_loads_json_dumps v Hv). reflexivity.
Qed.

(** X7.  [read_line] returns the first line of the chunk it received and
    drops the rest of it: when the frame of a representable message comes
    with more bytes behind it in the same chunk of at most 1024 bytes, the
    message is returned and those bytes are gone, whatever they were; the
    next call starts at the next chunk. *)
Theorem read_line_drops_rest_of_chunk (v : pyval) (junk : pybytes)
    (rest : list pybytes) (closes : bool) (written : pybytes) :
  representable v = true ->
  (length (json_dumps v) + 1 + length junk <= 1024)%nat ->
  exists c' : conn,
    read_line (Conn ((json_line v ++ junk) :: rest) closes written) = (Ret v, c') /\
    pending c' = rest /\ closed c' = closes /\ sent c' = written.
Proof.
  intros Hv Hlen. eexists. split; [now apply read_line_chunk|].
  repeat split.
Qed.


(** *** A peer that sends one frame per chunk *)

Lemma drain_frames (vs : list pyval) (n : nat) (closes : bool) (written : pybytes) :
  Forall (fun v => representable v = true /\ (length (json_dumps v) < 1024)%nat) vs ->
  (length vs < n)%nat ->
  drain n (Conn (map json_line vs) closes written)
  = (if closes then Exc JSONDecodeError else Blocked, Conn [] closes written).
Proof.
  intros Hvs. revert n. induction Hvs as [|v vs [Hv Hlen] _ IH]; intros n Hn.
  - destruct n as [|n]; [cbn in Hn; lia|]. destruct closes; reflexivity.
  - destruct n as [|n]; [cbn in Hn; lia|].
    cbn [drain map]. unfold mbind, io_mbind, io_bind.
    rewrite <- (app_nil_r (json_line v)).
    rewrite read_line_chunk by (assumption || (cbn [length]; lia)).
    apply IH. cbn [length] in Hn. lia.
Qed.

(** X8.  A session in which every chunk is one frame.  The peer's first
    chunk is the frame of a request with an [id] and a [uri]; every later
    chunk is the frame of a representable message of fewer than 1024
    bytes.  The daemon writes the reply and the edit, reads every later
    message without an exception, and ends waiting for more; if the peer
    closes instead, it ends with JSONDecodeError on the empty read. *)
Theorem session_of_whole_frames (open id edit : pyval) (later : list pyval)
    (closes : bool) :
  representable open = true ->
  (length (json_dumps open) < 1024)%nat ->
  getitem open (lit "id") = Ok id ->
  the_beautiful_edit open = Ok edit ->
  Forall (fun v => representable v = true /\ (length (json_dumps v) < 1024)%nat) later ->
  serve (Conn (json_line open :: map json_line later) closes [])
  = (if closes then Exc JSONDecodeError else Blocked,
     Conn [] closes
       (json_line (PDict [(lit "jsonrpc", PStr (lit "2.0"));
                     (lit "id", id);
                     (lit "result", PStr (lit "success"))])
        ++ json_line edit)).
Proof.
  intros Hopen Hlen Hid Hedit Hlater.
  assert (Hread : read_line (Conn (json_line open :: map json_line later) closes [])
                  = (Ret open, Conn (map json_line later) closes [])).
  { rewrite <- (app_nil_r (json_line open)).
    apply read_line_chunk; [assumption | cbn [length]; lia]. }
  unfold serve, mbind, io_mbind, io_bind.
  rewrite (greet_run _ _ open Hread). unfold response. rewrite Hid.
  cbn [bind]. rewrite Hedit. cbv zeta. cbn [pending closed sent app].
  unfold drain_loop, unread. cbn [pending].
  rewrite drain_frames; [| exact Hlater | rewrite length_map; lia].
  unfold json_line. rewrite <- !app_assoc. reflexivity.
Qed.

End Chunks.

(** *** The daemon's start *)

Section Startup.
Context `{FloatRepr}.




(** X10.  A directory at [socket_path] stops the daemon before it has a
    socket: [os.remove] raises IsADirectoryError, the file system is as it
    was and no connection is ever accepted. *)
Theorem main_stops_on_directory (fs : filesystem) (backlog : list conn) :
  fs !! socket_path = Some Directory ->
  main fs backlog = Run (Exc IsADirectoryError) fs [] backlog.
Proof.
  intros Hdir. unfold main, remove_stale_socket, os_path_exists, os_remove.
  cbn [stat]. rewrite Hdir. reflexivity.
Qed.

(** X11.  An entry at [socket_path] that [os.path.exists] does not report
    (a symbolic link whose target is missing, or a chain of links that is
    too long) is not removed, and [bind] then fails on it: the daemon ends
    with the address in use, before any connection. *)
Theorem main_stops_on_unseen_entry (fs : filesystem) (backlog : list conn)
    (entry : node) :
  fs !! socket_path = Some entry ->
  os_path_exists fs socket_path = false ->
  main fs backlog = Run (Exc AddressInUse) fs [] backlog.
Proof.
  intros Hentry Hexists. unfold main, remove_stale_socket, server_bind.
  rewrite Hexists, Hentry. reflexivity.
Qed.

End Startup.

(** *** The message of dummy-jsonrpc.py, decoded *)

Section Dummy.
Context `{FloatRepr} `{PathResolve}.

Lemma forallb_is_scalar_app (s t : pystr) :
  forallb is_scalar (s ++ t) = forallb is_scalar s && forallb is_scalar t.
Proof. apply forallb_app. Qed.

(** X12.  The JSON body dummy-jsonrpc.py prints decodes to the message it
    was made from, for either message type, when the resolved path is a
    string of Unicode scalar values. *)
Theorem printed_body_decodes (a : args) :
  forallb is_scalar (path_resolve (args_file a)) = true ->
  exists (m : pyval) (json : pystr) (body : pybytes),
    message a = Ok m /\ message_json a = Ok json /\
    str_encode json = Ok body /\ json_loads body = Ok m.
Proof.
  intros Hpath.
  assert (Huri : forallb is_scalar (uri a) = true).
  { unfold uri. rewrite forallb_is_scalar_app, Hpath. reflexivity. }
  destruct a as [[|] file]; eexists _, _, _;
    (split; [reflexivity|]); (split; [reflexivity|]);
    (split; [apply json_dumps_encodes|]);
    apply json_loads_json_dumps;
    cbn [representable forallb map fst snd position];
    rewrite Huri; reflexivity.
Qed.

End Dummy.

(** *** The output of dummy-jsonrpc.py, sent to the daemon *)

Lemma recv_segments_nonempty (n : nat) (segs rest : list pybytes) (data : pybytes) :
  (0 < n)%nat -> recv_segments n segs = Some (data, rest) -> data <> [].
Proof.
  intros Hn. induction segs as [|seg segs IH]; [discriminate|].
  destruct seg as [|b seg]; cbn [recv_segments]; [exact IH|].
  destruct (length (b :: seg) <=? n)%nat.
  - intros [= <- _]. discriminate.
  - intros [= <- _]. destruct n; [lia | discriminate].
Qed.

Lemma lstrip_keeps_last (a : pybytes) (c : byte) :
  is_space c = false ->
  exists pre kept, a = pre ++ kept /\ lstrip (a ++ [c]) = kept ++ [c].
Proof.
  intros Hc. induction a as [|x a IH].
  - exists [], []. split; [reflexivity|]. cbn [app lstrip]. now rewrite Hc.
  - cbn [app lstrip]. destruct (is_space x).
    + destruct IH as (pre & kept & -> & Hstrip).
      exists (x :: pre), kept. split; [reflexivity | exact Hstrip].
    + exists [], (x :: a). split; reflexivity.
Qed.

(** [strip] keeps a first byte that is no whitespace, and what it returns
    is a prefix of what it was given. *)
Lemma strip_keeps_first (c : byte) (t : pybytes) :
  is_space c = false ->
  exists kept dropped, t = kept ++ dropped /\ strip (c :: t) = c :: kept.
Proof.
  intros Hc. unfold strip. cbn [lstrip]. rewrite Hc. cbn [rev].
  destruct (lstrip_keeps_last (rev t) c Hc) as (pre & kept & Hrev & ->).
  exists (rev kept), (rev pre). split.
  - rewrite <- rev_app_distr, <- Hrev. symmetry. apply rev_involutive.
  - rewrite rev_unit. reflexivity.
Qed.

Lemma split_first_is_prefix (sep : byte) (b : pybytes) :
  exists l ls t, split sep b = l :: ls /\ b = l ++ t.
Proof.
  induction b as [|c b (l & ls & t & Hsplit & Hb)].
  - exists [], [], []. split; reflexivity.
  - cbn [split]. destruct (Byte.eqb c sep).
    + exists [], (split sep b), (c :: b). split; reflexivity.
    + rewrite Hsplit. exists (c :: l), ls, t. split; [reflexivity|].
      now rewrite Hb.
Qed.

Lemma plain_values (l : pybytes) :
  Forall plain l -> Forall (fun c => 0 < c < 128) (map Byte.to_N l).
Proof. induction 1; constructor; assumption. Qed.

Lemma utf8_decode_plain (s : pystr) :
  Forall (fun c => 0 < c < 128) s -> utf8_decode s = Ok s.
Proof.
  induction 1 as [|c s Hc Hs IH]; [reflexivity|].
  cbn [utf8_decode].
  replace (c <? 128) with true by (symmetry; apply N.ltb_lt; lia).
  rewrite IH. reflexivity.
Qed.

(** A line that starts with the letter C is no JSON text. *)
Lemma json_loads_header_line (l : pybytes) :
  Forall plain l -> json_loads (x43 :: l) = Raise JSONDecodeError.
Proof.
  intros Hl. apply plain_values in Hl. unfold json_loads. cbn [map].
  change (Byte.to_N x43) with 67.
  assert (Henc : detect_encoding (67 :: map Byte.to_N l) = UTF8).
  { unfold detect_encoding. rewrite !starts_with_head_ne by lia. cbn [orb].
    change (67 =? 0) with false. cbv iota.
    destruct Hl as [|b1 vs H1 Hl]; [reflexivity|].
    replace (b1 =? 0) with false by (symmetry; apply N.eqb_neq; lia).
    destruct vs as [|b2 [|b3 vs]]; reflexivity. }
  rewrite Henc. cbn [bytes_decode].
  rewrite utf8_decode_plain by (constructor; [lia | exact Hl]).
  reflexivity.
Qed.

Section DummyToDaemon.
Context `{FloatRepr} `{PathResolve}.

Lemma stdout_starts_with_header (a : args) :
  exists t, stdout a = Ok (x43 :: t) /\ Forall plain t.
Proof.
  destruct (DummyJsonrpcFacts.message_defined a) as [m Hm].
  assert (Htext : Forall (fun c => 0 < c < 128)
            (lit "Content-Length: " ++ nat_repr (length (json_dumps m))
             ++ [13; 10; 13; 10] ++ json_dumps m ++ [10])).
  { assert (Hp : forall s, Forall printable s -> Forall (fun c => 0 < c < 128) s).
    { intros s Hs. eapply Forall_impl; [exact Hs|]. unfold printable. cbn. lia. }
    apply Forall_app. split; [apply Hp, lit_printable; reflexivity|].
    apply Forall_app. split; [apply Hp, uint_chars_printable|].
    apply Forall_app. split; [repeat constructor; lia|].
    apply Forall_app. split; [apply Hp, json_dumps_printable|].
    repeat constructor; lia. }
  unfold stdout, printed, message_json. rewrite Hm. cbn [bind].
  rewrite str_encode_ascii
    by (eapply Forall_impl; [exact Htext|]; unfold ascii; cbn; lia).
  change (lit "Content-Length: ") with (67 :: lit "ontent-Length: ") in *.
  cbn [app map] in Htext |- *. apply Forall_cons in Htext as [_ Htext].
  eexists. split; [reflexivity|].
  clear -Htext. induction Htext as [|c s Hc Hs IH]; constructor; [|exact IH].
  unfold plain. rewrite byte_of_to_N by lia. exact Hc.
Qed.

(** X13.  The two scripts do not speak the same framing.  Whatever file
    and message type dummy-jsonrpc.py is run with, and in whatever chunks
    its output reaches the daemon, the daemon's first [read_line] tries to
    decode a line that starts with the Content-Length header and raises
    JSONDecodeError. *)
Theorem daemon_rejects_dummy_output (a : args) (out : pybytes)
    (segments : list pybytes) (closes : bool) :
  stdout a = Ok out ->
  concat segments = out ->
  (read_line (Conn segments closes [])).1 = Exc JSONDecodeError.
Proof.
  intros Hout Hsegs.
  destruct (stdout_starts_with_header a) as (t & Hstart & Hplain).
  rewrite Hout in Hstart. injection Hstart as ->.
  unfold read_line, mbind, io_mbind, io_bind, recv. cbn [pending].
  destruct (recv_segments 1024 segments) as [[data rest]|] eqn:Hrecv.
  - pose proof (recv_segments_nonempty 1024 _ _ _ ltac:(lia) Hrecv) as Hdata.
    apply recv_segments_stream in Hrecv as [Hstream _].
    rewrite Hsegs in Hstream.
    destruct data as [|c data]; [congruence|].
    injection Hstream as <- Ht.
    assert (Hdata' : Forall plain data).
    { rewrite Ht in Hplain. now apply Forall_app in Hplain as [Hd _]. }
    destruct (strip_keeps_first x43 data eq_refl) as (kept & dropped & Hkept & ->).
    destruct (split_first_is_prefix x0a kept) as (l & ls & t' & Hsplit & Hl).
    cbn [split]. change (Byte.eqb x43 x0a) with false. cbv iota.
    rewrite Hsplit. cbn [first bind].
    rewrite json_loads_header_line; [reflexivity|].
    rewrite Hkept, Hl in Hdata'.
    apply Forall_app in Hdata' as [Hd _]. now apply Forall_app in Hd as [Hd _].
  - apply recv_segments_nothing in Hrecv. rewrite Hsegs in Hrecv. discriminate.
Qed.

End DummyToDaemon.

(** *** How the daemon ends, and what it does not look at *)

Section Ends.
Context `{FloatRepr}.

(** X14.  The daemon never finishes: whatever the file system and
    whoever connects, the script ends with an exception or waits for ever
    in [accept] or [recv]. *)
Theorem main_never_returns (fs : filesystem) (backlog : list conn) :
  (exists e, status (main fs backlog) = Exc e) \/ status (main fs backlog) = Blocked.
Proof.
  unfold main.
  destruct (remove_stale_socket fs) as [fs1|e]; [|left; eauto].
  destruct (server_bind fs1 socket_path) as [fs2|e]; [|left; eauto].
  destruct backlog as [|c rest]; [right; reflexivity|].
  cbn [accept_loop].
  pose proof (serve_ends c) as Hends.
  destruct (serve c) as [[[]| e | |] c1]; cbn [fst status] in *.
  - destruct Hends as [[e He]|He]; discriminate.
  - left. eauto.
  - right. reflexivity.
  - destruct Hends as [[e He]|He]; discriminate.
Qed.



End Ends.

(** *** Whitespace around a frame, and the bytes dummy-jsonrpc.py prints *)

Lemma lstrip_spaces (pad b : pybytes) :
  forallb is_space pad = true -> lstrip (pad ++ b) = lstrip b.
Proof.
  induction pad as [|x pad IH]; [reflexivity|].
  cbn [forallb app lstrip]. intros Hpad.
  apply andb_true_iff in Hpad as [-> Hpad]. now apply IH.
Qed.

Lemma forallb_is_space_rev (pad : pybytes) :
  forallb is_space pad = true -> forallb is_space (rev pad) = true.
Proof.
  induction pad as [|x pad IH]; [reflexivity|].
  cbn [forallb rev]. intros Hpad. apply andb_true_iff in Hpad as [Hx Hpad].
  rewrite forallb_app, (IH Hpad). cbn [forallb]. now rewrite Hx.
Qed.

Lemma strip_padded (text before after init tail : pybytes) (c d : byte) :
  text = c :: tail -> text = init ++ [d] ->
  is_space c = false -> is_space d = false ->
  forallb is_space before = true -> forallb is_space after = true ->
  strip (before ++ text ++ after) = text.
Proof.
  intros Hhead Hlast Hc Hd Hbefore Hafter. unfold strip.
  rewrite (lstrip_spaces before _ Hbefore).
  assert (Hl : lstrip (text ++ after) = text ++ after).
  { rewrite Hhead. cbn [app lstrip]. now rewrite Hc. }
  rewrite Hl, rev_app_distr.
  rewrite (lstrip_spaces (rev after) _ (forallb_is_space_rev _ Hafter)).
  rewrite Hlast, rev_unit. cbn [lstrip]. rewrite Hd.
  rewrite <- (rev_unit init d). apply rev_involutive.
Qed.

Section Padding.
Context `{FloatRepr}.

(** X17.  [read_line] strips the chunk before it looks for the first
    line: a chunk that is the JSON text of a representable message with
    any whitespace before and after it (blank lines too), at most 1024
    bytes in all, is read as that message. *)
Theorem read_line_ignores_surrounding_whitespace (v : pyval)
    (before after : pybytes) (rest : list pybytes) (closes : bool)
    (written : pybytes) :
  representable v = true ->
  forallb is_space before = true ->
  forallb is_space after = true ->
  (length before + length (json_dumps v) + length after <= 1024)%nat ->
  read_line (Conn ((before ++ map byte_of (json_dumps v) ++ after) :: rest)
               closes written)
  = (Ret v, Conn rest closes written).
Proof.
  intros Hv Hbefore Hafter Hlen.
  destruct (json_text_ends v Hv) as (c & d & tail & init & Hhead & Hlast & Hc & Hd).
  pose proof (printable_bytes_no_newline _ (json_dumps_printable v)) as Hnl.
  unfold read_line, mbind, io_mbind, io_bind, recv. cbn [pending closed sent].
  rewrite recv_segments_head.
  - rewrite (strip_padded _ before after init tail c d Hhead Hlast Hc Hd Hbefore Hafter).
    rewrite (split_one_line _ Hnl). cbn [first bind].
    rewrite (json_loads_json_dumps v Hv). reflexivity.
  - rewrite Hhead. destruct before; discriminate.
  - rewrite !length_app, length_map. lia.
Qed.

End Padding.

Section DummyOutput.
Context `{FloatRepr} `{PathResolve}.

(** X18.  Whatever the file name, dummy-jsonrpc.py prints without an
    encoding error, and every byte it prints is a printable ASCII
    character, a carriage return or a line feed: every other character of
    the path is written as an escape. *)
Theorem printed_bytes_are_ascii (a : args) :
  exists out : pybytes,
    stdout a = Ok out /\
    Forall (fun b => 32 <= Byte.to_N b <= 126 \/ Byte.to_N b = 13 \/ Byte.to_N b = 10)
           out.
Proof.
  destruct (DummyJsonrpcFacts.message_defined a) as [m Hm].
  set (shown := fun c : N => 32 <= c <= 126 \/ c = 13 \/ c = 10).
  assert (Hp : forall s, Forall printable s -> Forall shown s).
  { intros s Hs. eapply Forall_impl; [exact Hs|]. unfold printable, shown. cbn. lia. }
  assert (Htext : Forall shown
            (lit "Content-Length: " ++ nat_repr (length (json_dumps m))
             ++ [13; 10; 13; 10] ++ json_dumps m ++ [10])).
  { apply Forall_app. split; [apply Hp, lit_printable; reflexivity|].
    apply Forall_app. split; [apply Hp, uint_chars_printable|].
    apply Forall_app. split; [repeat constructor; unfold shown; lia|].
    apply Forall_app. split; [apply Hp, json_dumps_printable|].
    repeat constructor; unfold shown; lia. }
  eexists. split.
  - unfold stdout, printed, message_json. rewrite Hm. cbn [bind].
    apply str_encode_ascii.
    eapply Forall_impl; [exact Htext|]. unfold shown, ascii. cbn. lia.
  - induction Htext as [|c s Hc Hs IH]; constructor; [|exact IH].
    unfold shown in Hc. rewrite byte_of_to_N by lia. exact Hc.
Qed.

End DummyOutput.

End MoreFacts.

(** ** The further properties at sample inputs *)

Module MoreScenarios.
Import Py Json DummyJsonrpc FakeDaemon Examples MoreExamples MoreFacts.

Lemma read_line_without_bytes_sample :
  (read_line (incoming [[]; []] true)).1 = Exc JSONDecodeError.
Proof.
  apply (read_line_without_bytes (incoming [[]; []] true)). reflexivity.
Defined.


Lemma greet_without_uri_sample :
  exists reply,
    @frame no_floats (PDict [(lit "jsonrpc", PStr (lit "2.0"));
                             (lit "id", PInt 7);
                             (lit "result", PStr (lit "success"))]) = Ok reply /\
    @greet no_floats (incoming [wire request_without_params] false)
    = (Exc (KeyError (lit "params")),
       Conn (pending (incoming [] false)) (closed (incoming [] false))
         (sent (incoming [wire request_without_params] false) ++ reply)).
Proof.
  apply (@greet_without_uri no_floats
           (incoming [wire request_without_params] false) (incoming [] false)
           request_without_params (PInt 7) (KeyError (lit "params"))).
  - vm_compute. reflexivity.
  - vm_compute. reflexivity.
  - vm_compute. reflexivity.
Defined.

Lemma greet_sends_reply_then_edit_sample :
  exists reply push,
    @frame no_floats (PDict [(lit "jsonrpc", PStr (lit "2.0"));
                             (lit "id", PInt 1);
                             (lit "result", PStr (lit "success"))]) = Ok reply /\
    @frame no_floats sample_edit = Ok push /\
    @greet no_floats (incoming [wire (open_request 1 (lit "file:///tmp/a.txt"))] false)
    = (Ret tt,
       Conn (pending (incoming [] false)) (closed (incoming [] false))
         (sent (incoming [wire (open_request 1 (lit "file:///tmp/a.txt"))] false)
          ++ reply ++ push)).
Proof.
  apply (@greet_sends_reply_then_edit no_floats
           (incoming [wire (open_request 1 (lit "file:///tmp/a.txt"))] false)
           (incoming [] false)
           (open_request 1 (lit "file:///tmp/a.txt")) (PInt 1) sample_edit).
  - vm_compute. reflexivity.
  - vm_compute. reflexivity.
  - vm_compute. reflexivity.
Defined.

Lemma read_line_drops_rest_of_chunk_sample :
  exists c' : conn,
    read_line (Conn [@json_line no_floats (open_request 1 (lit "file:///tmp/a.txt"))
                     ++ wire (open_request 2 (lit "file:///tmp/b.txt"))] false [])
    = (Ret (open_request 1 (lit "file:///tmp/a.txt")), c') /\
    pending c' = [] /\ closed c' = false /\ sent c' = [].
Proof.
  apply (@read_line_drops_rest_of_chunk no_floats
           (open_request 1 (lit "file:///tmp/a.txt"))
           (wire (open_request 2 (lit "file:///tmp/b.txt"))) [] false []).
  - vm_compute. reflexivity.
  - vm_compute. lia.
Defined.

Lemma session_of_whole_frames_sample :
  @serve no_floats
    (Conn (@json_line no_floats (open_request 1 (lit "file:///tmp/a.txt"))
           :: map (@json_line no_floats) [sample_reply 5; sample_edit]) false [])
  = (Blocked,
     Conn [] false
       (@json_line no_floats
          (PDict [(lit "jsonrpc", PStr (lit "2.0")); (lit "id", PInt 1);
                  (lit "result", PStr (lit "success"))])
        ++ @json_line no_floats sample_edit)).
Proof.
  apply (@session_of_whole_frames no_floats
           (open_request 1 (lit "file:///tmp/a.txt")) (PInt 1) sample_edit
           [sample_reply 5; sample_edit] false).
  - vm_compute. reflexivity.
  - vm_compute. lia.
  - vm_compute. reflexivity.
  - vm_compute. reflexivity.
  - repeat constructor; vm_compute; (reflexivity || lia).
Defined.


Lemma main_stops_on_directory_sample :
  @main no_floats {[socket_path := Directory]} [incoming [] false]
  = Run (Exc IsADirectoryError) {[socket_path := Directory]} [] [incoming [] false].
Proof.
  apply (@main_stops_on_directory no_floats). vm_compute. reflexivity.
Defined.

Lemma main_stops_on_unseen_entry_sample :
  @main no_floats {[socket_path := Symlink "/nowhere"]} [incoming [] false]
  = Run (Exc AddressInUse) {[socket_path := Symlink "/nowhere"]} [] [incoming [] false].
Proof.
  apply (@main_stops_on_unseen_entry no_floats _ _ (Symlink "/nowhere")).
  - vm_compute. reflexivity.
  - vm_compute. reflexivity.
Defined.

Lemma printed_body_decodes_sample :
  exists (m : pyval) (json : pystr) (body : pybytes),
    @message in_root {| args_message_type := MsgEdit; args_file := lit "a.txt" |} = Ok m /\
    @message_json no_floats in_root
      {| args_message_type := MsgEdit; args_file := lit "a.txt" |} = Ok json /\
    str_encode json = Ok body /\ json_loads body = Ok m.
Proof.
  apply (@printed_body_decodes no_floats in_root
           {| args_message_type := MsgEdit; args_file := lit "a.txt" |}).
  vm_compute. reflexivity.
Defined.

Lemma daemon_rejects_dummy_output_sample :
  (read_line (Conn [take 30 dummy_open_bytes; drop 30 dummy_open_bytes] true [])).1
  = Exc JSONDecodeError.
Proof.
  apply (@daemon_rejects_dummy_output no_floats in_root
           {| args_message_type := MsgOpen; args_file := lit "a.txt" |}
           dummy_open_bytes).
  - vm_compute. reflexivity.
  - vm_compute. reflexivity.
Defined.



Lemma read_line_ignores_surrounding_whitespace_sample :
  read_line
    (Conn [[x0a; x20] ++ map byte_of (@json_dumps no_floats (sample_reply 5))
           ++ [x0d; x0a; x0a]] false [])
  = (Ret (sample_reply 5), Conn [] false []).
Proof.
  apply (@read_line_ignores_surrounding_whitespace no_floats (sample_reply 5)
           [x0a; x20] [x0d; x0a; x0a] [] false []).
  - vm_compute. reflexivity.
  - reflexivity.
  - reflexivity.
  - vm_compute. lia.
Defined.

End MoreScenarios.
